(** * Retro camera: polaroid lifecycle and shared-room synchronisation

    A shallow embedding of the React application in [src/App.tsx], of the
    [Polaroid] card component and of the two other revisions of the
    application that the repository carries: the local-only one (no remote
    store) and the shared-room one with cursor presence, the [ignore] flag
    and viewport-normalised coordinates.

    Modelling conventions.
    - A React state variable is a field of a state record; an event handler
      is a function from the state in which it runs to the next state and
      the list of commands it issues (timers, sounds, remote requests,
      dialogs).  A handler attached by the last render reads the state it
      runs in, and so does a functional update [setX(prev => f prev)].
    - The window listeners that a card view installs when the pointer goes
      down are closures of the render of that moment, and they stay what
      they are until they run: what they read ([pendingPhoto],
      [maxZIndex], [user], [room]) is the value of that render, kept in a
      [Render] record; only their functional updates see the state of the
      moment the pointer goes up.
    - What a handler reads from the browser (the video element, element
      rectangles, the viewport size, [crypto.randomUUID()], [Date.now()],
      [Math.random()]) is an explicit argument.
    - A [setTimeout] callback, a promise continuation and a channel callback
      are handlers of their own, run when the environment delivers them; the
      values their closure captured travel in the command that scheduled
      them.
    - JavaScript numbers used as coordinates are rationals ([Q]); stack
      orders, counters and timestamps are integers ([Z]).  A statement
      about a coordinate names the operations the code applies to it, or
      an order between two values; two differently computed numbers are
      stated equal only where the binary64 computation is exact (sums,
      differences and halves of the integer pixel values the browser
      hands over), never through a division undone by a product. *)

From Stdlib Require Import ZArith QArith List String Bool Lia Sorted.
From stdpp Require Import gmap strings pretty.
From Stdlib Require Import Lqa.
Import ListNotations.

Local Open Scope Z_scope.

(** ** Data model ([src/types.ts]) *)

Inductive MediaType := MediaPhoto | MediaVideo.   (* 'photo' | 'video' *)

Module Photo.

Record t := mk {
  id : string;
  dataUrl : string;
  timestamp : Z;
  caption : option string;
  isDeveloping : bool;
  isStaticNegative : bool;
  isEjecting : bool;
  customText : option string;
  x : Q;
  y : Q;
  rotation : Q;
  zIndex : Z;
  backNote : option string;
  (* only the shared-room revision sets it; absent ([None]) elsewhere *)
  mediaType : option MediaType
}.

(** [{ ...p, zIndex: z }] *)
Definition with_zIndex (z : Z) (p : t) : t :=
  mk (id p) (dataUrl p) (timestamp p) (caption p) (isDeveloping p)
     (isStaticNegative p) (isEjecting p) (customText p) (x p) (y p)
     (rotation p) z (backNote p) (mediaType p).

(** [{ ...p, isEjecting: b }] *)
Definition with_isEjecting (b : bool) (p : t) : t :=
  mk (id p) (dataUrl p) (timestamp p) (caption p) (isDeveloping p)
     (isStaticNegative p) b (customText p) (x p) (y p)
     (rotation p) (zIndex p) (backNote p) (mediaType p).

(** [{ ...p, isDeveloping: b }] *)
Definition with_isDeveloping (b : bool) (p : t) : t :=
  mk (id p) (dataUrl p) (timestamp p) (caption p) b
     (isStaticNegative p) (isEjecting p) (customText p) (x p) (y p)
     (rotation p) (zIndex p) (backNote p) (mediaType p).

(** [{ ...p, caption }] *)
Definition with_caption (c : string) (p : t) : t :=
  mk (id p) (dataUrl p) (timestamp p) (Some c) (isDeveloping p)
     (isStaticNegative p) (isEjecting p) (customText p) (x p) (y p)
     (rotation p) (zIndex p) (backNote p) (mediaType p).

(** [{ ...p, x: 20, y: 0 }], the copy handed to the pending card's view *)
Definition with_xy (x' y' : Q) (p : t) : t :=
  mk (id p) (dataUrl p) (timestamp p) (caption p) (isDeveloping p)
     (isStaticNegative p) (isEjecting p) (customText p) x' y'
     (rotation p) (zIndex p) (backNote p) (mediaType p).

(** The object literal built by drag-to-keep:
    [{ ...pendingPhoto, x, y, isEjecting: false, isDeveloping: true,
       isStaticNegative: false, rotation, zIndex }] *)
Definition placed (x' y' rot : Q) (z : Z) (p : t) : t :=
  mk (id p) (dataUrl p) (timestamp p) (caption p) true
     false false (customText p) x' y' rot z (backNote p) (mediaType p).

End Photo.

Record CameraState := mkCameraState {
  stream : option nat;          (* an opaque MediaStream handle *)
  permissionGranted : bool;
  isFlashOn : bool;
  isCapturing : bool;
  isPoweredOn : bool
}.

Record User := mkUser { uid : string }.

(** A row of the remote [photos] table. [r_created_at] is the instant
    [new Date(p.created_at).getTime()] reads from the column, in
    milliseconds. *)
Record Row := mkRow {
  r_id : string;
  r_created_at : Z;
  r_user_id : option string;
  r_room_id : string;
  r_data_url : string;
  r_caption : option string;
  r_x : Q;
  r_y : Q;
  r_rotation : Q;
  r_z_index : Z
}.

(** The object passed to [supabase.from('photos').insert(...)]. It carries
    no id and no creation time: the table fills both in. *)
Record InsertPayload := mkInsertPayload {
  i_room_id : string;
  i_data_url : string;
  i_caption : option string;
  i_x : Q;
  i_y : Q;
  i_rotation : Q;
  i_z_index : Z
}.

Record Rect := mkRect {
  rect_left : Q;
  rect_top : Q;
  rect_width : Q;
  rect_height : Q
}.

Definition rect_bottom (r : Rect) : Q := (rect_top r + rect_height r)%Q.

(** The video element as [takePhoto] inspects it. *)
Record Video := mkVideo {
  readyState : Z;
  videoWidth : Z;
  videoHeight : Z
}.

(** What [takePhoto] finds in the document when the shutter is pressed. *)
Record Dom := mkDom {
  videoRef : option Video;
  canvasRef : bool;            (* canvasRef.current is set *)
  context2d : bool;            (* canvas.getContext('2d') is not null *)
  squareContext2d : bool;      (* squareCanvas.getContext('2d') is not null *)
  cameraBodyRef : option Rect; (* cameraBodyRef.current's bounding rectangle *)
  cameraFlash : bool;          (* the element with id camera-flash exists *)
  innerWidth : Q;
  innerHeight : Q;
  frame : string               (* squareCanvas.toDataURL('image/jpeg', 0.9) *)
}.

(** JavaScript truthiness of an optional string: [undefined], [null] and the
    empty string are falsy. *)
Definition truthy (s : option string) : bool :=
  match s with
  | Some s' => negb (s' =? "")%string
  | None => false
  end.

Definition Qlt_bool (a b : Q) : bool := negb (Qle_bool b a).

(** [Math.max(...zs)] on a list known to be non-empty. *)
Definition max_of (z : Z) (zs : list Z) : Z := fold_left Z.max zs z.

Definition Math_max (zs : list Z) : option Z :=
  match zs with
  | [] => None
  | z :: zs' => Some (max_of z zs')
  end.

(** ** Commands issued by handlers *)

Inductive Sound := Shutter | Printing | Reload.

(** [setTimeout] callbacks of the application, with what their closure
    captured. *)
Inductive Timer :=
| PageFlashOff                       (* () => setShowPageFlash(false) *)
| CameraFlashOff                     (* flash.style.opacity = '0' *)
| Eject (url : string) (ai : bool) (text : string)
                                     (* the delayed ejection of a capture *)
| CaptureReset                       (* isCapturing: false *)
| EjectionEnd                        (* isEjecting: false on the pending card *)
| DevelopDone (photoId : string)     (* isDeveloping: false on a stored card *)
| ReloadDone.                        (* shotsLeft = 8, isReloading = false *)

Inductive Cmd :=
| SetTimeout (callback : Timer) (ms : Z)
| Play (s : Sound)
| GenerateCaption (photoId url : string)
| RemoteSelect (roomId : string) (limit : nat)
| RemoteInsert (payload : InsertPayload)
| Subscribe (topic : string)
| RemoveChannel (topic : string)
| ConsoleError (msg : string)
| Alert (msg : string).

(** ** The application of [src/App.tsx] *)

Module App.

Record AppState := mkAppState {
  user : option User;
  isAuthOpen : bool;
  state : CameraState;
  photos : list Photo.t;
  shotsLeft : Z;
  isReloading : bool;
  pendingPhoto : option Photo.t;
  isAiEnabled : bool;
  maxZIndex : Z;
  customText : string;
  isSettingsOpen : bool;
  showPageFlash : bool;
  flashBurstPos : option (Q * Q);
  room : string
}.

(** The values of the [useState] initialisers. *)
Definition initial : AppState :=
  mkAppState None false (mkCameraState None false false false false) []
             8 false None true 30 "May I meet you"%string false false None
             "global"%string.

Definition setUser (v : option User) (s : AppState) : AppState :=
  mkAppState v (isAuthOpen s) (state s) (photos s) (shotsLeft s)
    (isReloading s) (pendingPhoto s) (isAiEnabled s) (maxZIndex s)
    (customText s) (isSettingsOpen s) (showPageFlash s) (flashBurstPos s)
    (room s).

Definition setIsAuthOpen (v : bool) (s : AppState) : AppState :=
  mkAppState (user s) v (state s) (photos s) (shotsLeft s)
    (isReloading s) (pendingPhoto s) (isAiEnabled s) (maxZIndex s)
    (customText s) (isSettingsOpen s) (showPageFlash s) (flashBurstPos s)
    (room s).

Definition setState (v : CameraState) (s : AppState) : AppState :=
  mkAppState (user s) (isAuthOpen s) v (photos s) (shotsLeft s)
    (isReloading s) (pendingPhoto s) (isAiEnabled s) (maxZIndex s)
    (customText s) (isSettingsOpen s) (showPageFlash s) (flashBurstPos s)
    (room s).

Definition setPhotos (v : list Photo.t) (s : AppState) : AppState :=
  mkAppState (user s) (isAuthOpen s) (state s) v (shotsLeft s)
    (isReloading s) (pendingPhoto s) (isAiEnabled s) (maxZIndex s)
    (customText s) (isSettingsOpen s) (showPageFlash s) (flashBurstPos s)
    (room s).

Definition setShotsLeft (v : Z) (s : AppState) : AppState :=
  mkAppState (user s) (isAuthOpen s) (state s) (photos s) v
    (isReloading s) (pendingPhoto s) (isAiEnabled s) (maxZIndex s)
    (customText s) (isSettingsOpen s) (showPageFlash s) (flashBurstPos s)
    (room s).

Definition setIsReloading (v : bool) (s : AppState) : AppState :=
  mkAppState (user s) (isAuthOpen s) (state s) (photos s) (shotsLeft s)
    v (pendingPhoto s) (isAiEnabled s) (maxZIndex s)
    (customText s) (isSettingsOpen s) (showPageFlash s) (flashBurstPos s)
    (room s).

Definition setPendingPhoto (v : option Photo.t) (s : AppState) : AppState :=
  mkAppState (user s) (isAuthOpen s) (state s) (photos s) (shotsLeft s)
    (isReloading s) v (isAiEnabled s) (maxZIndex s)
    (customText s) (isSettingsOpen s) (showPageFlash s) (flashBurstPos s)
    (room s).

Definition setIsAiEnabled (v : bool) (s : AppState) : AppState :=
  mkAppState (user s) (isAuthOpen s) (state s) (photos s) (shotsLeft s)
    (isReloading s) (pendingPhoto s) v (maxZIndex s)
    (customText s) (isSettingsOpen s) (showPageFlash s) (flashBurstPos s)
    (room s).

Definition setMaxZIndex (v : Z) (s : AppState) : AppState :=
  mkAppState (user s) (isAuthOpen s) (state s) (photos s) (shotsLeft s)
    (isReloading s) (pendingPhoto s) (isAiEnabled s) v
    (customText s) (isSettingsOpen s) (showPageFlash s) (flashBurstPos s)
    (room s).

Definition setCustomText (v : string) (s : AppState) : AppState :=
  mkAppState (user s) (isAuthOpen s) (state s) (photos s) (shotsLeft s)
    (isReloading s) (pendingPhoto s) (isAiEnabled s) (maxZIndex s)
    v (isSettingsOpen s) (showPageFlash s) (flashBurstPos s)
    (room s).

Definition setIsSettingsOpen (v : bool) (s : AppState) : AppState :=
  mkAppState (user s) (isAuthOpen s) (state s) (photos s) (shotsLeft s)
    (isReloading s) (pendingPhoto s) (isAiEnabled s) (maxZIndex s)
    (customText s) v (showPageFlash s) (flashBurstPos s)
    (room s).

Definition setShowPageFlash (v : bool) (s : AppState) : AppState :=
  mkAppState (user s) (isAuthOpen s) (state s) (photos s) (shotsLeft s)
    (isReloading s) (pendingPhoto s) (isAiEnabled s) (maxZIndex s)
    (customText s) (isSettingsOpen s) v (flashBurstPos s)
    (room s).

Definition setFlashBurstPos (v : option (Q * Q)) (s : AppState) : AppState :=
  mkAppState (user s) (isAuthOpen s) (state s) (photos s) (shotsLeft s)
    (isReloading s) (pendingPhoto s) (isAiEnabled s) (maxZIndex s)
    (customText s) (isSettingsOpen s) (showPageFlash s) v
    (room s).

Definition setRoom (v : string) (s : AppState) : AppState :=
  mkAppState (user s) (isAuthOpen s) (state s) (photos s) (shotsLeft s)
    (isReloading s) (pendingPhoto s) (isAiEnabled s) (maxZIndex s)
    (customText s) (isSettingsOpen s) (showPageFlash s) (flashBurstPos s)
    v.

Definition with_isCapturing (b : bool) (c : CameraState) : CameraState :=
  mkCameraState (stream c) (permissionGranted c) (isFlashOn c) b
                (isPoweredOn c).

Definition with_isFlashOn (b : bool) (c : CameraState) : CameraState :=
  mkCameraState (stream c) (permissionGranted c) b (isCapturing c)
                (isPoweredOn c).

Definition with_isPoweredOn (b : bool) (c : CameraState) : CameraState :=
  mkCameraState (stream c) (permissionGranted c) (isFlashOn c)
                (isCapturing c) b.

(** *** The card store *)

(** [prev.map(p => p.id === id ? { ...p, zIndex: newZ } : p)] *)
Definition raise (i : string) (newZ : Z) (prev : list Photo.t) : list Photo.t :=
  map (fun p => if (Photo.id p =? i)%string then Photo.with_zIndex newZ p else p)
      prev.

(** [prev.map(p => p.id === id ? { ...p, isDeveloping: false } : p)] *)
Definition settle (i : string) (prev : list Photo.t) : list Photo.t :=
  map (fun p => if (Photo.id p =? i)%string
                then Photo.with_isDeveloping false p else p) prev.

(** The updater of the change-feed handler:
    [if (prev.find(existing => existing.id === newPhoto.id)) return prev;
     return [...prev, newPhoto];]
    [find] yields an object or [undefined], and every object is truthy. *)
Definition insertIfAbsent (newPhoto : Photo.t) (prev : list Photo.t)
  : list Photo.t :=
  match find (fun existing => (Photo.id existing =? Photo.id newPhoto)%string)
             prev with
  | Some _ => prev
  | None => prev ++ [newPhoto]
  end.

(** *** Focus *)

Definition bringToFront (i : string) (s : AppState) : AppState :=
  let newZ := maxZIndex s + 1 in
  let s1 := setMaxZIndex newZ s in
  let s2 := setPhotos (raise i newZ (photos s1)) s1 in
  (* If clicking the pending photo, stop ejecting mode *)
  match pendingPhoto s with
  | Some pp =>
      if (Photo.id pp =? i)%string
      then setPendingPhoto
             (match pendingPhoto s2 with
              | Some p => Some (Photo.with_isEjecting false p)
              | None => None
              end) s2
      else s2
  | None => s2
  end.

(** *** Capture *)

Definition takePhoto (d : Dom) (s : AppState) : AppState * list Cmd :=
  match pendingPhoto s with
  | Some _ => (s, [])                      (* Block if slot occupied *)
  | None =>
  if (shotsLeft s <=? 0) || isReloading s || negb (isPoweredOn (state s))
  then (s, [])                             (* empty, reloading, or off *)
  else
  match videoRef d with
  | None => (s, [])
  | Some video =>
  if negb (canvasRef d) || isCapturing (state s) then (s, [])
  else if (readyState video <? 2) || (videoWidth video =? 0)
          || (videoHeight video =? 0)
  then (s, [])
  else
    let s1 := setState (with_isCapturing true (state s)) s in
    let s2 := setShotsLeft (shotsLeft s1 - 1) s1 in
    let s3 :=
      if isFlashOn (state s) then
        setShowPageFlash true
          (match cameraBodyRef d with
           | Some rect =>
               setFlashBurstPos
                 (Some ((rect_left rect + rect_width rect * (23 # 100))%Q,
                        (rect_top rect + rect_height rect * (23 # 100))%Q)) s2
           | None => s2
           end)
      else s2 in
    let flashCmds :=
      if isFlashOn (state s) then [SetTimeout PageFlashOff 400] else [] in
    if negb (context2d d) then (s3, Play Shutter :: flashCmds)
    else if squareContext2d d then
      (s3, Play Shutter :: flashCmds
           ++ (if cameraFlash d && isFlashOn (state s)
               then [SetTimeout CameraFlashOff 100] else [])
           ++ [SetTimeout (Eject (frame d) (isAiEnabled s) (customText s)) 4000])
    else (s3, Play Shutter :: flashCmds)
  end
  end.

Definition spawn (d : Dom) : Q * Q :=
  match cameraBodyRef d with
  | Some rect =>
      let halfWidth := (if Qlt_bool (innerWidth d) 640 then 112 else 128)%Q in
      ((rect_left rect + rect_width rect / 2 - halfWidth)%Q,
       (rect_bottom rect - 60)%Q)
  | None => (100%Q, 100%Q)
  end.

(** The callback of the 4000 ms timer set by [takePhoto]. [uuid] is
    [crypto.randomUUID()], [now] is [Date.now()]. *)
Definition eject (d : Dom) (uuid : string) (now : Z)
    (url : string) (ai : bool) (text : string) (s : AppState)
  : AppState * list Cmd :=
  let newPhoto :=
    Photo.mk uuid url now None false true true
             (if ai then None else Some text)
             (fst (spawn d)) (snd (spawn d)) 0%Q 1 None None in
  (setPendingPhoto (Some newPhoto) s,
   Play Printing
   :: (if ai then [GenerateCaption uuid url] else [])
   ++ [SetTimeout CaptureReset 500; SetTimeout EjectionEnd 3000]).

(** The continuation of [generateCaption(dataUrl)] for the capture
    [photoId]. The update of the saved photos is commented out in the
    source, so only the pending slot is looked at. *)
Definition captionArrived (photoId cap : string) (s : AppState) : AppState :=
  setPendingPhoto
    (match pendingPhoto s with
     | Some curr =>
         if (Photo.id curr =? photoId)%string
         then Some (Photo.with_caption cap curr)
         else Some curr
     | None => None
     end) s.

(** *** Timer callbacks *)

Definition pageFlashOff (s : AppState) : AppState := setShowPageFlash false s.

Definition captureReset (s : AppState) : AppState :=
  setState (with_isCapturing false (state s)) s.

Definition ejectionEnd (s : AppState) : AppState :=
  setPendingPhoto
    (match pendingPhoto s with
     | Some curr => Some (Photo.with_isEjecting false curr)
     | None => None
     end) s.

Definition developDone (photoId : string) (s : AppState) : AppState :=
  setPhotos (settle photoId (photos s)) s.

Definition reloadDone (s : AppState) : AppState :=
  setIsReloading false (setShotsLeft 8 s).

(** *** Drag-to-keep *)

(** [Math.random() * 10 - 5] *)
Definition tilt (random : Q) : Q := (random * 10 - 5)%Q.

(** [handlePendingDragEnd] up to its [await] (signed in) or to its end
    (signed out), called in the state of the render it belongs to. *)
Definition handlePendingDragEnd (i : string) (x y random : Q) (s : AppState)
  : AppState * list Cmd :=
  match pendingPhoto s with
  | None => (s, [])
  | Some pp =>
  if negb (Photo.id pp =? i)%string then (s, [])
  else
    let rotation := tilt random in
    let zIndex := maxZIndex s + 1 in
    match user s with
    | Some _ =>
        (* Save to Supabase; the rest runs when the request settles *)
        (s, [RemoteInsert
               (mkInsertPayload (room s) (Photo.dataUrl pp) (Photo.caption pp)
                                x y rotation zIndex)])
    | None =>
        (* Local fallback *)
        let finalPhoto := Photo.placed x y rotation zIndex pp in
        let s1 := setPhotos (photos s ++ [finalPhoto]) s in
        let s2 := setMaxZIndex (maxZIndex s1 + 1) s1 in
        (setPendingPhoto None s2, [SetTimeout (DevelopDone i) 5200])
    end
  end.

(** What the closures of one render read: the state variables of that
    render that [handlePendingDragEnd] and the pending card's wrapper
    look at. *)
Record Render := mkRender {
  seenPendingPhoto : option Photo.t;
  seenMaxZIndex : Z;
  seenUser : option User;
  seenRoom : string
}.

Definition render (s : AppState) : Render :=
  mkRender (pendingPhoto s) (maxZIndex s) (user s) (room s).

(** [handlePendingDragEnd] of the render [r], called in state [s]: the
    guard, [zIndex], [user], [room] and the spread of [pendingPhoto] read
    the values of [r]; [setPhotos(prev => ...)], [setMaxZIndex(prev =>
    prev + 1)] and [setPendingPhoto(null)] act on [s]. *)
Definition handlePendingDragEndOf (r : Render) (i : string) (x y random : Q)
    (s : AppState) : AppState * list Cmd :=
  match seenPendingPhoto r with
  | None => (s, [])
  | Some pp =>
  if negb (Photo.id pp =? i)%string then (s, [])
  else
    let rotation := tilt random in
    let zIndex := seenMaxZIndex r + 1 in
    match seenUser r with
    | Some _ =>
        (s, [RemoteInsert
               (mkInsertPayload (seenRoom r) (Photo.dataUrl pp)
                                (Photo.caption pp) x y rotation zIndex)])
    | None =>
        let finalPhoto := Photo.placed x y rotation zIndex pp in
        let s1 := setPhotos (photos s ++ [finalPhoto]) s in
        let s2 := setMaxZIndex (maxZIndex s1 + 1) s1 in
        (setPendingPhoto None s2, [SetTimeout (DevelopDone i) 5200])
    end
  end.

(** [handlePendingDragEnd] after the [await]: [failed] tells whether the
    response carried an [error]. *)
Definition insertSettled (failed : bool) (s : AppState) : AppState * list Cmd :=
  let s1 := setMaxZIndex (maxZIndex s + 1) s in
  (setPendingPhoto None s1,
   if failed
   then [ConsoleError "Error saving photo:"%string;
         Alert "Failed to save photo to the cloud!"%string]
   else []).

(** *** Film roll *)

Definition handleReload (s : AppState) : AppState * list Cmd :=
  if isReloading s then (s, [])
  else (setIsReloading true s, [Play Reload; SetTimeout ReloadDone 2000]).

(** *** Controls of the settings panel *)

(** [onClick={() => setPhotos([])}] of the Reset button *)
Definition reset (s : AppState) : AppState * list Cmd := (setPhotos [] s, []).

Definition togglePower (s : AppState) : AppState :=
  setState (with_isPoweredOn (negb (isPoweredOn (state s))) (state s)) s.

Definition toggleFlash (s : AppState) : AppState :=
  if isPoweredOn (state s)
  then setState (with_isFlashOn (negb (isFlashOn (state s))) (state s)) s
  else s.

(** The camera effect after [getUserMedia] settles, the effect not having
    been cleaned up meanwhile ([isMounted]): with a stream,
    [setState(prev => ({ ...prev, stream, permissionGranted: true }))];
    on an error, [permissionGranted: false]. *)
Definition cameraAnswered (answer : option nat) (s : AppState) : AppState :=
  match answer with
  | Some media =>
      setState (mkCameraState (Some media) true (isFlashOn (state s))
                              (isCapturing (state s)) (isPoweredOn (state s)))
               s
  | None =>
      setState (mkCameraState (stream (state s)) false (isFlashOn (state s))
                              (isCapturing (state s)) (isPoweredOn (state s)))
               s
  end.

(** The [disabled] attribute of the shutter button, whose [onClick] is
    [takePhoto]. *)
Definition shutterDisabled (s : AppState) : bool :=
  negb (permissionGranted (state s))
  || isCapturing (state s)
  || match pendingPhoto s with Some _ => true | None => false end
  || (shotsLeft s <=? 0)
  || isReloading s
  || negb (isPoweredOn (state s)).

Definition toggleAi (s : AppState) : AppState :=
  setIsAiEnabled (negb (isAiEnabled s)) s.

Definition toggleSettings (s : AppState) : AppState :=
  setIsSettingsOpen (negb (isSettingsOpen s)) s.

(** *** Load and subscribe: the effect on [[room, user]] *)

Definition topic (r : string) : string := ("room:" ++ r)%string.

(** The body of the effect, up to the first [await]. *)
Definition roomEffect (s : AppState) : AppState * list Cmd :=
  match user s with
  | None => (setPhotos [] s, [])
  | Some _ => (s, [RemoteSelect (room s) 50; Subscribe (topic (room s))])
  end.

(** The cleanup returned by the run of the effect in state [old]. *)
Definition roomCleanup (old : AppState) : list Cmd :=
  match user old with
  | None => []
  | Some _ => [RemoveChannel (topic (room old))]
  end.

(** Map DB fields to Photo type. [developing] is [false] in [fetchPhotos]
    and [true] in the change-feed handler. *)
Definition photoOfRow (developing : bool) (p : Row) : Photo.t :=
  Photo.mk (r_id p) (r_data_url p) (r_created_at p) (r_caption p)
           developing false false
           (if truthy (r_caption p) then None else Some "Shared Memory"%string)
           (r_x p) (r_y p) (r_rotation p) (r_z_index p) None None.

(** [fetchPhotos] after its [await]; [data] is [None] when the response
    carries no rows (an error). *)
Definition fetched (data : option (list Row)) (s : AppState) : AppState :=
  match data with
  | Some rows =>
      let mapped := map (photoOfRow false) rows in
      let s1 := setPhotos mapped s in
      match Math_max (map Photo.zIndex mapped) with
      | Some m => setMaxZIndex (m + 1) s1     (* mapped.length > 0 *)
      | None => s1
      end
  | None => s
  end.

(** The [postgres_changes] INSERT callback. *)
Definition rowInserted (p : Row) (s : AppState) : AppState * list Cmd :=
  let newPhoto := photoOfRow true p in
  (setPhotos (insertIfAbsent newPhoto (photos s)) s,
   [SetTimeout (DevelopDone (Photo.id newPhoto)) 5200]).

(** [setRoom(e.target.value)] followed by the re-run of the effect when
    the value differs from the one of the previous render. *)
Definition changeRoom (v : string) (s : AppState) : AppState * list Cmd :=
  if (v =? room s)%string then (s, [])
  else
    let s1 := setRoom v s in
    (fst (roomEffect s1), roomCleanup s ++ snd (roomEffect s1)).

(** [setUser(session?.user ?? null)] from the auth listener, followed by
    the re-run of the effect. A session brings a new user object, so the
    dependency changed; [null] after [null] is no change. *)
Definition authChanged (u : option User) (s : AppState) : AppState * list Cmd :=
  match user s, u with
  | None, None => (s, [])
  | _, _ =>
      let s1 := setUser u s in
      (fst (roomEffect s1), roomCleanup s ++ snd (roomEffect s1))
  end.

End App.

(** ** The card view ([Polaroid], the revision with the flip side) *)

Module Polaroid.

Section Handlers.

Variable App : Type.            (* the state of the application around it *)

(** [handleStart]: pointer or touch down on the card. The result tells
    whether the drag began, that is whether the window listeners
    ([handleWindowMove], [handleWindowUp]) were installed. *)
Definition handleStart (photo : Photo.t) (onTextarea : bool)
    (onFocus : string -> App -> App) (s : App) : App * bool :=
  if onTextarea then (s, false)
  else if Photo.isEjecting photo then (s, false)
  else (onFocus (Photo.id photo) s, true).

(** [handleWindowUp], as far as the application sees it: the call of
    [onDragEnd] with the position of the card. The flip on a click is
    local to the view. *)
Definition handleWindowUp (photo : Photo.t) (position : Q * Q)
    (onDragEnd : option (string -> Q -> Q -> App -> App * list Cmd)) (s : App)
  : App * list Cmd :=
  match onDragEnd with
  | Some f => f (Photo.id photo) (fst position) (snd position) s
  | None => (s, [])
  end.

End Handlers.

Arguments handleStart {App} photo onTextarea onFocus s.
Arguments handleWindowUp {App} photo position onDragEnd s.

End Polaroid.

(** ** The running application: [src/App.tsx] with its card views *)

Module Run.

Import App.

(** [listeners] holds, for every press on the pending card whose
    [handleStart] installed its window listeners, the render the
    listeners' closures come from. [handleWindowUp] removes the
    listeners that [listenersRef.current] names, which are those of the
    last press: the listeners of a press that was followed by a second
    press before any release are never removed, and run again at every
    later [mouseup] or [touchend] on the window. The list keeps every
    entry, which only adds deliveries. The listeners of a stored card
    have no [onDragEnd] and do not touch the state of the application:
    they are left out. *)
Record World := mkWorld {
  app : AppState;
  listeners : list Render
}.

Definition boot : World := mkWorld initial [].

Inductive UserEvent :=
| PressShutter (d : Dom)
| PressReloadButton
| PressResetButton
| PressLens
| PressFlashUnit
| SwitchAi
| PressSettings
| PressAuthButton
| TypeRoom (v : string)
| TypeCustomText (v : string)
| PointerDownPending (onTextarea : bool)
| PointerDownCard (i : string) (onTextarea : bool)
| PointerUp (l : Render) (x y random : Q).

(** Deliveries by the environment. A timer callback runs with what it
    reads from the browser at that moment. The answer to a fetch and a row
    of the change feed come without the room they were asked for: the
    callbacks of [src/App.tsx] do not look at it. *)
Inductive SystemEvent :=
| Fires (t : Timer) (d : Dom) (uuid : string) (now : Z)
| CaptionResolved (photoId cap : string)
| FetchResolved (data : option (list Row))
| InsertResolved (failed : bool)
| ChangeFeed (p : Row)
| AuthStateChange (u : option User)
| CameraAnswered (answer : option nat).

Inductive Event :=
| ByUser (u : UserEvent)
| BySystem (e : SystemEvent).

Definition fire (t : Timer) (d : Dom) (uuid : string) (now : Z)
    (s : AppState) : AppState :=
  match t with
  | PageFlashOff => pageFlashOff s
  | CameraFlashOff => s
  | Eject url ai text => fst (eject d uuid now url ai text s)
  | CaptureReset => captureReset s
  | EjectionEnd => ejectionEnd s
  | DevelopDone i => developDone i s
  | ReloadDone => reloadDone s
  end.

(** The pending card is rendered as
    [<Polaroid photo={{ ...pendingPhoto, x: 20, y: 0 }}
               onFocus={() => bringToFront(pendingPhoto.id)}
               onDragEnd={(id, x, y) => handlePendingDragEnd(id,
                  (pendingPhoto.x - 20) + x, pendingPhoto.y + y)} />]
    and a stored card as [<Polaroid photo={photo} onFocus={bringToFront} />].
    [onFocus] runs in the render of the press. The drag-end callback is
    the one of that render too: at the release it calls the
    [handlePendingDragEnd] of the render of the press, with the wrapper
    position of that render. *)

(** A press on the pending card: the world after it, and the render whose
    listeners it installed, if the drag began. *)
Definition pressPending (onTextarea : bool) (w : World)
  : World * option Render :=
  let s := app w in
  match pendingPhoto s with
  | Some pp =>
      let r := Polaroid.handleStart (Photo.with_xy 20 0 pp) onTextarea
                 (fun _ => bringToFront (Photo.id pp)) s in
      if snd r
      then (mkWorld (fst r) (render s :: listeners w), Some (render s))
      else (mkWorld (fst r) (listeners w), None)
  | None => (w, None)
  end.

(** A press on the stored card [i]: the world after it, and whether the
    drag began, that is whether [bringToFront(i)] was called. *)
Definition pressCard (i : string) (onTextarea : bool) (w : World)
  : World * bool :=
  let s := app w in
  match find (fun p => (Photo.id p =? i)%string) (photos s) with
  | Some card =>
      let r := Polaroid.handleStart card onTextarea bringToFront s in
      (mkWorld (fst r) (listeners w), snd r)
  | None => (w, false)
  end.

(** The release that reaches the listeners of the render [l]. *)
Definition release (l : Render) (x y random : Q) (w : World) : World :=
  match seenPendingPhoto l with
  | Some from =>
      mkWorld
        (fst (Polaroid.handleWindowUp (Photo.with_xy 20 0 from) (x, y)
                (Some (fun i lx ly =>
                         handlePendingDragEndOf l i
                           ((Photo.x from - 20) + lx)%Q
                           (Photo.y from + ly)%Q random))
                (app w)))
        (listeners w)
  | None => w
  end.

Definition user_step (u : UserEvent) (w : World) : World :=
  let s := app w in
  match u with
  | PressShutter d => mkWorld (fst (takePhoto d s)) (listeners w)
  | PressReloadButton => mkWorld (fst (handleReload s)) (listeners w)
  | PressResetButton => mkWorld (fst (reset s)) (listeners w)
  | PressLens => mkWorld (togglePower s) (listeners w)
  | PressFlashUnit => mkWorld (toggleFlash s) (listeners w)
  | SwitchAi => mkWorld (toggleAi s) (listeners w)
  | PressSettings => mkWorld (toggleSettings s) (listeners w)
  | PressAuthButton =>
      match user s with
      | Some _ => w                          (* supabase.auth.signOut() *)
      | None => mkWorld (setIsAuthOpen true s) (listeners w)
      end
  | TypeRoom v => mkWorld (fst (changeRoom v s)) (listeners w)
  | TypeCustomText v => mkWorld (setCustomText v s) (listeners w)
  | PointerDownPending onTextarea => fst (pressPending onTextarea w)
  | PointerDownCard i onTextarea => fst (pressCard i onTextarea w)
  | PointerUp l x y random => release l x y random w
  end.

Definition system_step (e : SystemEvent) (w : World) : World :=
  let s := app w in
  match e with
  | Fires t d uuid now => mkWorld (fire t d uuid now s) (listeners w)
  | CaptionResolved i cap => mkWorld (captionArrived i cap s) (listeners w)
  | FetchResolved data => mkWorld (fetched data s) (listeners w)
  | InsertResolved failed => mkWorld (fst (insertSettled failed s)) (listeners w)
  | ChangeFeed p => mkWorld (fst (rowInserted p s)) (listeners w)
  | AuthStateChange u => mkWorld (fst (authChanged u s)) (listeners w)
  | CameraAnswered answer => mkWorld (cameraAnswered answer s) (listeners w)
  end.

Definition step (e : Event) (w : World) : World :=
  match e with
  | ByUser u => user_step u w
  | BySystem e' => system_step e' w
  end.

(** The ids of the captures that installed listeners close over. *)
Definition heldIds (w : World) : list string :=
  flat_map (fun l => match seenPendingPhoto l with
                     | Some pp => [Photo.id pp]
                     | None => []
                     end) (listeners w).

(** What the environment can deliver in a world.
    - A window [mouseup]/[touchend] reaches the drag-end callback of a
      pending card only through a listener installed for it.
    - [crypto.randomUUID()] and the ids given by the remote table do not
      repeat an id in use.
    - Timers, answers and change-feed rows may come at any moment and in
      any order, which contains every schedule the browser can produce. *)
Definition admissible (w : World) (e : Event) : Prop :=
  match e with
  | ByUser (PointerUp l _ _ _) => In l (listeners w)
  | BySystem (Fires (Eject _ _ _) _ uuid _) =>
      ~ In uuid (map Photo.id (photos (app w))) /\
      ~ In uuid (heldIds w)
  | BySystem (ChangeFeed p) =>
      forall pp, pendingPhoto (app w) = Some pp -> r_id p <> Photo.id pp
  | BySystem (FetchResolved (Some rows)) =>
      forall pp, pendingPhoto (app w) = Some pp ->
                 ~ In (Photo.id pp) (map r_id rows)
  | _ => True
  end.

Inductive reachable : World -> Prop :=
| reachable_boot : reachable boot
| reachable_step (w : World) (e : Event) :
    reachable w -> admissible w e -> reachable (step e w).

(** The pending capture is not in the card store. *)
Definition coherent (w : World) : Prop :=
  forall pp, pendingPhoto (app w) = Some pp ->
    ~ In (Photo.id pp) (map Photo.id (photos (app w))).

(** Runs of events. *)
Definition run (es : list Event) (w : World) : World :=
  fold_left (fun w' e => step e w') es w.

Fixpoint admissibleRun (es : list Event) (w : World) : Prop :=
  match es with
  | [] => True
  | e :: es' => admissible w e /\ admissibleRun es' (step e w)
  end.

End Run.

(** ** The local-only revision (no remote store) *)

Module Offline.

Import App.

(** [prev.map(p => p.id === newPhoto.id ? { ...p, caption } : p)] *)
Definition recaption (photoId cap : string) (prev : list Photo.t)
  : list Photo.t :=
  map (fun p => if (Photo.id p =? photoId)%string
                then Photo.with_caption cap p else p) prev.

(** The continuation of [generateCaption(dataUrl)]: the pending photo if
    it is still there, and the saved photos if the user already dragged
    it. *)
Definition captionArrived (photoId cap : string) (s : AppState) : AppState :=
  let s1 := App.captionArrived photoId cap s in
  setPhotos (recaption photoId cap (photos s1)) s1.

Definition handlePendingDragEnd (i : string) (x y random : Q) (s : AppState)
  : AppState :=
  match pendingPhoto s with
  | None => s
  | Some pp =>
  if negb (Photo.id pp =? i)%string then s
  else
    let finalPhoto := Photo.placed x y (tilt random) (maxZIndex s + 1) pp in
    let s1 := setMaxZIndex (maxZIndex s + 1) s in
    let s2 := setPhotos (photos s1 ++ [finalPhoto]) s1 in
    setPendingPhoto None s2
  end.

End Offline.

(** ** The shared-room revision (presence, [ignore] flag, normalised
       coordinates) *)

Module Synced.

Import App.

Record Cursor := mkCursor {
  cursor_x : Q;
  cursor_y : Q;
  color : string;
  lastUpdate : Z
}.

(** What one run of the load-and-subscribe effect closes over: its
    [ignore] variable and the [room] and [user] of its render. *)
Record EffectRun := mkEffectRun {
  ignore : bool;
  run_room : string;
  run_user : User
}.

Definition with_ignore (b : bool) (r : EffectRun) : EffectRun :=
  mkEffectRun b (run_room r) (run_user r).

Record State := mkState {
  base : AppState;                 (* the state variables shared with App.tsx *)
  cursors : gmap string Cursor;
  channelRef : option string;      (* the topic of channelRef.current *)
  runs : list EffectRun;           (* every run of the effect so far *)
  current : option nat             (* the run whose cleanup React holds *)
}.

Definition initial : State :=
  mkState (setRoom ""%string App.initial) ∅ None [] None.

Definition setBase (b : AppState) (s : State) : State :=
  mkState b (cursors s) (channelRef s) (runs s) (current s).

Definition setCursors (c : gmap string Cursor) (s : State) : State :=
  mkState (base s) c (channelRef s) (runs s) (current s).

(** The cleanup of run [g]:
    [ignore = true; supabase.removeChannel(channel); channelRef.current = null] *)
Definition cleanup (g : nat) (s : State) : State * list Cmd :=
  match runs s !! g with
  | Some r =>
      (mkState (base s) (cursors s) None
               (<[g := with_ignore true r]> (runs s)) None,
       [RemoveChannel (topic (run_room r))])
  | None => (s, [])
  end.

(** The body of the effect. *)
Definition roomEffect (s : State) : State * list Cmd :=
  match user (base s) with
  | None => (setBase (setPhotos [] (base s)) s, [])
  | Some u =>
      let r := room (base s) in
      (mkState (setPhotos [] (base s)) ∅ (Some (topic r))
               (runs s ++ [mkEffectRun false r u])
               (Some (length (runs s))),
       [RemoteSelect r 50; Subscribe (topic r)])
  end.

(** React re-runs the effect: the held cleanup first, then the body. *)
Definition rerun (s : State) : State * list Cmd :=
  let c := match current s with
           | Some g => cleanup g s
           | None => (s, [])
           end in
  (fst (roomEffect (fst c)), snd c ++ snd (roomEffect (fst c))).

Definition changeRoom (v : string) (s : State) : State * list Cmd :=
  if (v =? room (base s))%string then (s, [])
  else rerun (setBase (setRoom v (base s)) s).

Definition authChanged (u : option User) (s : State) : State * list Cmd :=
  match user (base s), u with
  | None, None => (s, [])
  | _, _ => rerun (setBase (setUser u (base s)) s)
  end.

(** [p.x >= 0 && p.x <= 1 && p.y >= 0 && p.y <= 1] *)
Definition isNormalized (p : Row) : bool :=
  Qle_bool 0 (r_x p) && Qle_bool (r_x p) 1
  && Qle_bool 0 (r_y p) && Qle_bool (r_y p) 1.

(** ['data:video'.length] leading characters decide the media type. *)
Definition mediaTypeOf (url : string) : MediaType :=
  if String.prefix "data:video" url then MediaVideo else MediaPhoto.

(** The products are those of the code, taken on rationals: a stored
    fraction times the viewport size is not simplified against the
    division that made the fraction. *)
Definition photoOfRow (developing : bool) (d : Dom) (p : Row) : Photo.t :=
  Photo.mk (r_id p) (r_data_url p) (r_created_at p) (r_caption p)
           developing false false
           (if truthy (r_caption p) then None else Some "Shared Memory"%string)
           (if isNormalized p then (r_x p * innerWidth d)%Q else r_x p)
           (if isNormalized p then (r_y p * innerHeight d)%Q else r_y p)
           (r_rotation p) (r_z_index p) None
           (Some (mediaTypeOf (r_data_url p))).

(** [fetchPhotos] of run [g] after its [await]. *)
Definition fetched (g : nat) (data : option (list Row)) (d : Dom) (s : State)
  : State :=
  match runs s !! g, data with
  | Some r, Some rows =>
      if ignore r then s
      else
        let mapped := map (photoOfRow false d) rows in
        let b1 := setPhotos mapped (base s) in
        setBase (match Math_max (map Photo.zIndex mapped) with
                 | Some m => setMaxZIndex (m + 1) b1
                 | None => b1
                 end) s
  | _, _ => s
  end.

(** The [postgres_changes] INSERT callback of run [g]. *)
Definition rowInserted (g : nat) (p : Row) (d : Dom) (s : State)
  : State * list Cmd :=
  match runs s !! g with
  | Some r =>
      if ignore r then (s, [])
      else
        let newPhoto := photoOfRow true d p in
        (setBase (setPhotos (insertIfAbsent newPhoto (photos (base s)))
                            (base s)) s,
         [SetTimeout (DevelopDone (Photo.id newPhoto)) 5200])
  | None => (s, [])
  end.

(** The [broadcast] CURSOR callback of run [g]; [now] is [Date.now()]. *)
Definition cursorReceived (g : nat) (userId : string) (x y : Q)
    (col : string) (now : Z) (s : State) : State :=
  match runs s !! g with
  | Some r =>
      if (userId =? uid (run_user r))%string then s
      else setCursors (<[userId := mkCursor x y col now]> (cursors s)) s
  | None => s
  end.

(** The [broadcast] FLASH callback. *)
Definition flashReceived (s : State) : State * list Cmd :=
  (setBase (setShowPageFlash true (base s)) s, [SetTimeout PageFlashOff 400]).

(** Clean up old cursors, every second. *)
Definition sweepCursors (now : Z) (s : State) : State :=
  setCursors
    (filter (fun kc : string * Cursor => now - lastUpdate (snd kc) <= 2000)
            (cursors s)) s.

(** [handlePendingDragEnd] up to its [await] or to its end. *)
Definition handlePendingDragEnd (i : string) (x y random : Q) (d : Dom)
    (s : State) : State * list Cmd :=
  let b := base s in
  match pendingPhoto b with
  | None => (s, [])
  | Some pp =>
  if negb (Photo.id pp =? i)%string then (s, [])
  else
    let rotation := tilt random in
    let zIndex := maxZIndex b + 1 in
    match user b with
    | Some _ =>
        let xPercent := (x / innerWidth d)%Q in
        let yPercent := (y / innerHeight d)%Q in
        (s, [RemoteInsert
               (mkInsertPayload (room b) (Photo.dataUrl pp) (Photo.caption pp)
                                xPercent yPercent rotation zIndex)])
    | None =>
        let finalPhoto := Photo.placed x y rotation zIndex pp in
        let b1 := setPhotos (photos b ++ [finalPhoto]) b in
        let b2 := setMaxZIndex (maxZIndex b1 + 1) b1 in
        (setBase (setPendingPhoto None b2) s,
         [SetTimeout (DevelopDone i) 5200])
    end
  end.

Definition insertSettled (failed : bool) (s : State) : State * list Cmd :=
  (setBase (fst (App.insertSettled failed (base s))) s,
   snd (App.insertSettled failed (base s))).

End Synced.

(** ** The remote table as the queries see it *)

Module Remote.

(** [order('created_at', { ascending: true })]; rows created at the same
    instant keep the order of the table. *)
Fixpoint place (r : Row) (sorted : list Row) : list Row :=
  match sorted with
  | [] => [r]
  | h :: t =>
      if r_created_at r <=? r_created_at h then r :: sorted
      else h :: place r t
  end.

Definition oldestFirst (rows : list Row) : list Row :=
  fold_right place [] rows.

(** The answer to the query built by [fetchPhotos]:
    [from('photos').select('*').eq('room_id', room)
       .order('created_at', { ascending: true }).limit(n)]
    that is the rows of the room, ordered by creation ascending, capped
    at [n] rows. *)
Definition select (r : string) (n : nat) (table : list Row) : list Row :=
  firstn n
    (oldestFirst (List.filter (fun p => (r_room_id p =? r)%string) table)).

(** The [n] most recently created rows of a room, oldest first: what the
    specification (and the source's comment, limit to last 50) asks the
    fetch to return. *)
Definition mostRecent (r : string) (n : nat) (table : list Row) : list Row :=
  let all := oldestFirst (List.filter (fun p => (r_room_id p =? r)%string) table) in
  skipn (length all - n) all.

End Remote.

(** ** Sequences of operations *)

Module Ops.

Import App.

(** A sequence of presses of the shutter, with the commands issued. *)
Fixpoint captureRequests (ds : list Dom) (s : AppState) : AppState * list Cmd :=
  match ds with
  | [] => (s, [])
  | d :: ds' =>
      let r := takePhoto d s in
      let r' := captureRequests ds' (fst r) in
      (fst r', snd r ++ snd r')
  end.

(** Focus and placement, the two gestures that hand out a stack order:
    a press on a stored card, which calls [bringToFront]; and a press on
    the pending card followed by its release, which calls
    [bringToFront] and then the [handlePendingDragEnd] of the render of
    the press. *)
Inductive StackOp :=
| Focus (i : string)
| Keep (x y random : Q).

Definition apply (o : StackOp) (w : Run.World) : Run.World :=
  match o with
  | Focus i => Run.step (Run.ByUser (Run.PointerDownCard i false)) w
  | Keep x y random =>
      match snd (Run.pressPending false w) with
      | Some l =>
          Run.run [Run.ByUser (Run.PointerDownPending false);
                   Run.ByUser (Run.PointerUp l x y random)] w
      | None => Run.step (Run.ByUser (Run.PointerDownPending false)) w
      end
  end.

(** The stack order that the first card of id [i] holds in the store. *)
Definition stored (i : string) (w : Run.World) : option Z :=
  match find (fun p => (Photo.id p =? i)%string) (photos (Run.app w)) with
  | Some c => Some (Photo.zIndex c)
  | None => None
  end.







(** No stored card is above the counter. *)
Definition below (s : AppState) : Prop :=
  Forall (fun p => Photo.zIndex p <= maxZIndex s) (photos s).

End Ops.

(** ** Normalised coordinates *)

(** A coordinate in the 0-1 range. *)
Definition inUnit (q : Q) : Prop := (0 <= q)%Q /\ (q <= 1)%Q.

(** An insert request with both coordinates in the 0-1 range. *)
Definition normalised (payload : InsertPayload) : Prop :=
  inUnit (i_x payload) /\ inUnit (i_y payload).

(** ** Sample data *)

Module Demo.

Import App.

Definition jpeg : string := "data:image/jpeg;base64,AAAA"%string.

Definition dom : Dom :=
  mkDom (Some (mkVideo 4 1280 720)) true true true
        (Some (mkRect 40 60 360 300)) true 1000 800 jpeg.

Definition alice : User := mkUser "alice"%string.

(** A capture as [eject] builds it. *)
Definition shot : Photo.t :=
  Photo.mk "p1"%string jpeg 1700000000000 None false true true None
           92 300 0 1 None None.

(** The same capture once its ejection ended. *)
Definition ready : Photo.t := Photo.with_isEjecting false shot.

Definition poweredOn : AppState :=
  setState (mkCameraState (Some 0%nat) true false false true) initial.

Definition occupied : AppState := setPendingPhoto (Some shot) poweredOn.

Definition awaiting : AppState := setPendingPhoto (Some ready) poweredOn.

Definition signedIn : AppState := setUser (Some alice) awaiting.

Definition card (i : string) (z : Z) : Photo.t :=
  Photo.mk i jpeg 1700000000000 (Some "hello"%string) false false false None
           120 340 (3 # 2) z None None.

Definition row (i r : string) (t z : Z) : Row :=
  mkRow i t (Some "bob"%string) r jpeg (Some "hi"%string) (1 # 4) (1 # 2)
        (3 # 2) z.

(** A room with 51 cards, created at instants 1 to 51 and named by the
    character of code 48 + n; the newest is the card of code 99. *)
Definition nameOf (n : nat) : string :=
  String (Ascii.ascii_of_nat (48 + n)) EmptyString.

Definition crowded : list Row :=
  map (fun n => row (nameOf n) "demo" (Z.of_nat n) (30 + Z.of_nat n))
      (seq 1 51).

Definition oldest : string := nameOf 1.
Definition newest : string := nameOf 51.

(** The store after joining that room. *)
Definition joined : AppState :=
  fetched (Some (Remote.select "demo" 50 crowded)) (setRoom "demo" signedIn).

(** A signed-out user keeps the capture p1 at (120, 340); its caption
    resolves afterwards. *)
Definition keptEarly : AppState :=
  fst (handlePendingDragEnd "p1" 120 340 (1 # 2) awaiting).

Definition captionedLate : AppState :=
  captionArrived "p1" "Summer of 89" keptEarly.

(** Sign-in in room global, a switch to room b while the first fetch is
    in flight, the answer for b (no rows), then the late answer for
    global. *)
Definition lateAnswer : Row := row "a1" "global" 5 31.

Definition switchDuringFetch : list Run.Event :=
  [Run.BySystem (Run.AuthStateChange (Some alice));
   Run.ByUser (Run.TypeRoom "b");
   Run.BySystem (Run.FetchResolved (Some []));
   Run.BySystem (Run.FetchResolved (Some [lateAnswer]))].

Definition strayed : Run.World := Run.run switchDuringFetch Run.boot.

(** Power on, press the shutter, and the ejection timer fires. *)
Definition firstShot : list Run.Event :=
  [Run.ByUser Run.PressLens;
   Run.ByUser (Run.PressShutter dom);
   Run.BySystem (Run.Fires (Eject jpeg true "May I meet you") dom "p1"
                           1700000000000)].

Definition ejecting : Run.World := Run.run firstShot Run.boot.



(** A signed-out session with one stored card and a capture awaiting
    placement. *)
Definition desk : AppState := setPhotos [card "c1" 30] awaiting.

(** That session as a world, nothing pressed yet. *)
Definition deskWorld : Run.World := Run.mkWorld desk [].

(** The lens is pressed and the camera answers with a stream: the
    shutter button is enabled. *)
Definition powerUp : list Run.Event :=
  [Run.ByUser Run.PressLens;
   Run.BySystem (Run.CameraAnswered (Some 0%nat))].

(** The shutter is pressed; the capture p1 is ejected, the capturing
    flag is reset and the ejection ends. *)
Definition settledShot : list Run.Event :=
  powerUp
  ++ [Run.ByUser (Run.PressShutter dom);
      Run.BySystem (Run.Fires (Eject jpeg true "May I meet you") dom "p1"
                              1700000000000);
      Run.BySystem (Run.Fires CaptureReset dom "" 0);
      Run.BySystem (Run.Fires EjectionEnd dom "" 0)].

(** The render in which p1 then waits in the slot. *)
Definition held : Render := render (Run.app (Run.run settledShot Run.boot)).

(** The card p1 is pressed twice before any release (a second finger, or
    a release that did not reach the window), then released: the
    listeners of the first press run, remove those of the second and
    stay on the window. The shutter is then clicked with the pointer:
    the release of that click reaches them again. *)
Definition keptTwice : list Run.Event :=
  settledShot
  ++ [Run.ByUser (Run.PointerDownPending false);
      Run.ByUser (Run.PointerDownPending false);
      Run.ByUser (Run.PointerUp held 400 40 (1 # 2));
      Run.ByUser (Run.PointerUp held 400 40 (1 # 2))].

(** The click takes a photo, and the capture p2 is ejected. *)
Definition secondShot : list Run.Event :=
  keptTwice
  ++ [Run.ByUser (Run.PressShutter dom);
      Run.BySystem (Run.Fires (Eject jpeg true "May I meet you") dom "p2"
                              1700000009000)].

Definition reshot : Run.World := Run.run secondShot Run.boot.

(** The shared-room revision, signed in, in its first run of the effect. *)
Definition shared : Synced.State :=
  Synced.mkState signedIn ∅ (Some (topic "global"))
                 [Synced.mkEffectRun false "global" alice] (Some 0%nat).

End Demo.

(** ** The square crop of a capture (in [takePhoto]) *)

Module Frame.

(** The source rectangle of
    [squareCtx.drawImage(canvas, startX, startY, size, size, 0, 0, size, size)]. *)
Record Crop := mkCrop {
  startX : Q;
  startY : Q;
  size : Q
}.

(** [Math.min(a, b)] *)
Definition Math_min (a b : Q) : Q := if Qle_bool a b then a else b.

(** The canvas takes the size of the video frame; the square is cut from
    its middle. *)
Definition crop (v : Video) : Crop :=
  let width := inject_Z (videoWidth v) in
  let height := inject_Z (videoHeight v) in
  let sz := Math_min width height in
  mkCrop ((width - sz) / 2)%Q ((height - sz) / 2)%Q sz.

End Frame.

(** ** The throttle utility (shared-room revision) *)

Module Throttle.

(** What a call of the throttled function does: it applies [func], and
    it sets the timer that clears [inThrottle] after [limit] ms. *)
Inductive Effect (A : Type) :=
| Apply (args : A)
| ClearAfter (limit : Z).

Arguments Apply {A} args.
Arguments ClearAfter {A} limit.

(** The throttled function, on its closure variable [inThrottle]
    ([undefined], falsy, at first). *)
Definition call {A : Type} (limit : Z) (args : A) (inThrottle : bool)
  : bool * list (Effect A) :=
  if negb inThrottle then (true, [Apply args; ClearAfter limit])
  else (inThrottle, []).

(** [() => inThrottle = false] *)
Definition clear (inThrottle : bool) : bool := false.

Inductive Event (A : Type) :=
| Called (args : A)
| TimerFired.

Arguments Called {A} args.
Arguments TimerFired {A}.

Fixpoint run {A : Type} (limit : Z) (es : list (Event A)) (inThrottle : bool)
  : bool * list (Effect A) :=
  match es with
  | [] => (inThrottle, [])
  | Called args :: es' =>
      let r := call limit args inThrottle in
      let r' := run limit es' (fst r) in
      (fst r', snd r ++ snd r')
  | TimerFired :: es' => run limit es' (clear inThrottle)
  end.

Definition applied {A : Type} (fx : list (Effect A)) : list A :=
  flat_map (fun e => match e with Apply a => [a] | ClearAfter _ => [] end) fx.

Definition timersSet {A : Type} (fx : list (Effect A)) : nat :=
  length (List.filter (fun e => match e with ClearAfter _ => true | Apply _ => false end) fx).

Definition timersFired {A : Type} (es : list (Event A)) : nat :=
  length (List.filter (fun e => match e with TimerFired => true | Called _ => false end) es).

End Throttle.

(** ** The sign-in dialog ([src/components/AuthModal.tsx]) *)

Module AuthModal.

Record State := mkState {
  email : string;
  password : string;
  isSignUp : bool;
  loading : bool;
  error : option string
}.

Definition initial : State :=
  mkState EmptyString EmptyString false false None.

Inductive Request :=
| SignUp (mail pass : string)
| SignInWithPassword (mail pass : string).

(** [handleAuth] up to its [await]. *)
Definition handleAuth (s : State) : State * Request :=
  (mkState (email s) (password s) (isSignUp s) true None,
   if isSignUp s then SignUp (email s) (password s)
   else SignInWithPassword (email s) (password s)).

(** [handleAuth] after its [await]. [signUp] is the [isSignUp] the handler
    closed over; [failure] is the message of the error the response
    carried or the call threw. The dialog is mounted with
    [onClose={() => setIsAuthOpen(false)}] and
    [onLoginSuccess={() => setIsAuthOpen(false)}]. *)
Definition settled (signUp : bool) (failure : option string)
    (s : State) (a : App.AppState) : State * App.AppState * list Cmd :=
  match failure with
  | Some message =>
      (mkState (email s) (password s) (isSignUp s) false (Some message), a, [])
  | None =>
      if signUp then
        (mkState (email s) (password s) (isSignUp s) false (error s), a,
         [Alert "Check your email for the confirmation link!"%string])
      else
        (mkState (email s) (password s) (isSignUp s) false (error s),
         App.setIsAuthOpen false (App.setIsAuthOpen false a), [])
  end.

(** [setIsSignUp(!isSignUp)] *)
Definition toggleSignUp (s : State) : State :=
  mkState (email s) (password s) (negb (isSignUp s)) (loading s) (error s).

End AuthModal.

(** ** The caption service ([generateCaption]) *)

Module Gemini.

(** The first occurrence of [sep] in [s]: what precedes it and what
    follows it. *)
Fixpoint cut (sep s : string) : option (string * string) :=
  if String.prefix sep s
  then Some (EmptyString, String.substring (String.length sep)
                            (String.length s - String.length sep) s)
  else match s with
       | EmptyString => None
       | String c s' =>
           match cut sep s' with
           | Some (before, after) => Some (String c before, after)
           | None => None
           end
       end.

(** [base64Image.includes('base64,')
       ? base64Image.split('base64,')[1] : base64Image] *)
Definition cleanBase64 (base64Image : string) : string :=
  match cut "base64," base64Image with
  | None => base64Image
  | Some (_, rest) =>
      match cut "base64," rest with
      | None => rest
      | Some (second, _) => second
      end
  end.

(** How the call of the model ends: it throws (or the client cannot be
    built), or it answers with [response.text], which may be undefined. *)
Inductive Reply :=
| Threw
| Answered (text : option string).

Section Caption.

(** [String.prototype.trim] *)
Variable trim : string -> string.

(** [apiKey] is [process.env.API_KEY || '']. Reading [.trim()] of an
    undefined text throws inside the [try]. *)
Definition generateCaption (apiKey : string) (reply : Reply) : string :=
  if (apiKey =? "")%string then "Memories captured in time..."%string
  else
    match reply with
    | Threw => "Captured moment #84"%string
    | Answered None => "Captured moment #84"%string
    | Answered (Some text) =>
        if (trim text =? "")%string then "A beautiful moment."%string
        else trim text
    end.

End Caption.

End Gemini.

(** ** Cursor presence (shared-room revision) *)

Module Presence.

(** [user.id.split('').reduce((acc, char) => acc + char.charCodeAt(0), 0)] *)
Definition colorHash (userId : string) : nat :=
  fold_left (fun acc char => (acc + Ascii.nat_of_ascii char)%nat)
            (list_ascii_of_string userId) 0%nat.

(** [colorHash % 360] *)
Definition hue (userId : string) : nat := (colorHash userId mod 360)%nat.

(** [`hsl(${hue}, 70%, 60%)`] *)
Definition color (userId : string) : string :=
  ("hsl(" ++ pretty (hue userId) ++ ", 70%, 60%)")%string.

(** The payload of a CURSOR broadcast. *)
Record CursorPayload := mkCursorPayload {
  userId : string;
  x : Q;
  y : Q;
  paint : string              (* the field [color] *)
}.

(** The function that [handleMouseMove] throttles to one call per 100 ms:
    the topic of [channelRef.current] and the payload it sends, if any. *)
Definition handleMouseMove (clientX clientY : Q) (d : Dom) (s : Synced.State)
  : option (string * CursorPayload) :=
  match App.user (Synced.base s), Synced.channelRef s with
  | Some u, Some channel =>
      Some (channel,
            mkCursorPayload (uid u) (clientX / innerWidth d)%Q
                            (clientY / innerHeight d)%Q (color (uid u)))
  | _, _ => None
  end.


(** The CURSOR callback of run [g] on a payload. *)
Definition receive (g : nat) (p : CursorPayload) (now : Z) (s : Synced.State)
  : Synced.State :=
  Synced.cursorReceived g (userId p) (x p) (y p) (paint p) now s.

End Presence.

(** ** The cursor overlay ([CursorOverlay]) *)

Module CursorOverlay.

(** [Math.max(a, b)] *)
Definition Math_max (a b : Q) : Q := if Qle_bool a b then b else a.

(** [Math.max(0, 1 - (Date.now() - cursor.lastUpdate) / 2000)] *)
Definition opacity (now : Z) (c : Synced.Cursor) : Q :=
  Math_max 0 (1 - inject_Z (now - Synced.lastUpdate c) / 2000)%Q.

(** [left: `${cursor.x * 100}%`], [top: `${cursor.y * 100}%`] *)
Definition leftPercent (c : Synced.Cursor) : Q := (Synced.cursor_x c * 100)%Q.
Definition topPercent (c : Synced.Cursor) : Q := (Synced.cursor_y c * 100)%Q.

End CursorOverlay.

(** ** The card view's own state ([Polaroid], the revision with the flip
       side) *)

Module PolaroidView.

Record State := mkState {
  position : Q * Q;
  isDragging : bool;
  isFlipped : bool;
  hasMoved : bool;
  dragOffset : Q * Q;
  dragStartPos : Q * Q;
  listening : bool            (* listenersRef.current is set *)
}.

(** The state of a freshly mounted view. *)
Definition mount (photo : Photo.t) : State :=
  mkState (Photo.x photo, Photo.y photo) false false false
          (0%Q, 0%Q) (0%Q, 0%Q) false.

(** [handleStart]; [element] tells whether [elementRef.current] is set.
    The second component tells whether [onFocus(photo.id)] was called. *)
Definition handleStart (photo : Photo.t) (onTextarea element : bool)
    (clientX clientY : Q) (s : State) : State * bool :=
  if onTextarea then (s, false)
  else if Photo.isEjecting photo then (s, false)
  else
    (mkState (position s) true (isFlipped s) false
             (if element
              then ((clientX - fst (position s))%Q, (clientY - snd (position s))%Q)
              else dragOffset s)
             (clientX, clientY) true,
     true).

(** [Math.sqrt(Math.pow(dx, 2) + Math.pow(dy, 2)) > 5], that is
    [dx * dx + dy * dy > 25]. *)
Definition farther (dx dy : Q) : bool :=
  Qlt_bool 25 (dx * dx + dy * dy)%Q.

(** [handleWindowMove] *)
Definition handleWindowMove (cx cy : Q) (s : State) : State :=
  mkState ((cx - fst (dragOffset s))%Q, (cy - snd (dragOffset s))%Q)
          (isDragging s) (isFlipped s)
          (if farther (cx - fst (dragStartPos s)) (cy - snd (dragStartPos s))
           then true else hasMoved s)
          (dragOffset s) (dragStartPos s) (listening s).

(** [handleWindowUp] of the listeners installed when the view showed
    [photo]; the second component is what [onDragEnd] is called with:
    [positionRef.current], which an effect sets to [position] after
    every render. *)
Definition handleWindowUp (photo : Photo.t) (s : State)
  : State * (string * Q * Q) :=
  (mkState (position s) false
           (if negb (hasMoved s) && negb (Photo.isEjecting photo)
               && negb (Photo.isDeveloping photo)
            then negb (isFlipped s) else isFlipped s)
           (hasMoved s) (dragOffset s) (dragStartPos s) false,
   (Photo.id photo, fst (position s), snd (position s))).

Definition moves (path : list (Q * Q)) (s : State) : State :=
  fold_left (fun s' p => handleWindowMove (fst p) (snd p) s') path s.

End PolaroidView.

(** ** Capture in the shared-room revision ([takePhoto], [ejectMedia]) *)

Module Studio.

Import App.

Inductive Mode := PhotoMode | VideoMode.    (* 'photo' | 'video' *)

(** The state variables that revision adds for capture, around those
    modelled in [Synced]. *)
Record State := mkState {
  synced : Synced.State;
  mode : Mode;
  isRecording : bool;
  warningMsg : option string
}.

Definition base (s : State) : AppState := Synced.base (synced s).

Definition setBase (b : AppState) (s : State) : State :=
  mkState (Synced.setBase b (synced s)) (mode s) (isRecording s) (warningMsg s).

Definition setIsRecording (v : bool) (s : State) : State :=
  mkState (synced s) (mode s) v (warningMsg s).

Definition setWarningMsg (v : option string) (s : State) : State :=
  mkState (synced s) (mode s) (isRecording s) v.

Definition setMode (v : Mode) (s : State) : State :=
  mkState (synced s) v (isRecording s) (warningMsg s).

(** The [disabled] attribute of the shutter button, whose [onClick] is
    [takePhoto]. *)
Definition shutterDisabled (s : State) : bool :=
  negb (permissionGranted (state (base s)))
  || isCapturing (state (base s))
  || match pendingPhoto (base s) with Some _ => true | None => false end
  || (shotsLeft (base s) <=? 0)
  || isReloading (base s)
  || negb (isPoweredOn (state (base s))).

Inductive Effect :=
| Issue (c : Cmd)
| SendFlash (channel : string)          (* broadcast FLASH *)
| ClearWarningAfter (ms : Z)            (* setWarningMsg(null) *)
| StartRecorder (stream : nat)          (* mediaRecorder.start() *)
| StopRecorderAfter (ms : Z)            (* mediaRecorder.stop() if recording *)
| EjectMediaAfter (url : string) (type : MediaType) (ai : bool) (text : string)
                  (ms : Z)              (* ejectMedia(dataUrl, 'photo') *)
| ResetCaptureAfter (ms : Z).           (* isCapturing: false, isRecording: false *)

Section Capture.

(** [String.prototype.trim] *)
Variable trim : string -> string.

Definition takePhoto (d : Dom) (s : State) : State * list Effect :=
  let b := base s in
  match pendingPhoto b with
  | Some _ => (s, [])
  | None =>
  (* Validate Room ID *)
  if (trim (room b) =? "")%string then
    (setWarningMsg (Some "MISSING ID"%string)
       (setBase (setIsSettingsOpen true b) s),
     [ClearWarningAfter 2000])
  else if (shotsLeft b <=? 0) || isReloading b || negb (isPoweredOn (state b))
  then (s, [])
  else
  match videoRef d with
  | None => (s, [])
  | Some video =>
  if negb (canvasRef d) || isCapturing (state b) || isRecording s then (s, [])
  else if (readyState video <? 2) || (videoWidth video =? 0)
          || (videoHeight video =? 0)
  then (s, [])
  else
  match mode s with
  | VideoMode =>
      match stream (state b) with
      | None => (s, [])
      | Some st =>
          (setIsRecording true s,
           [Issue (Play Shutter); StartRecorder st; StopRecorderAfter 3000])
      end
  | PhotoMode =>
      let flash :=
        match Synced.channelRef (synced s) with
        | Some channel => [SendFlash channel]
        | None => []
        end in
      let b1 := setState (with_isCapturing true (state b)) b in
      let b2 := setShotsLeft (shotsLeft b1 - 1) b1 in
      let b3 :=
        if isFlashOn (state b) then
          setShowPageFlash true
            (match cameraBodyRef d with
             | Some rect =>
                 setFlashBurstPos
                   (Some ((rect_left rect + rect_width rect * (23 # 100))%Q,
                          (rect_top rect + rect_height rect * (23 # 100))%Q)) b2
             | None => b2
             end)
        else b2 in
      let flashCmds :=
        if isFlashOn (state b) then [Issue (SetTimeout PageFlashOff 400)]
        else [] in
      if negb (context2d d)
      then (setBase b3 s, flash ++ Issue (Play Shutter) :: flashCmds)
      else if squareContext2d d then
        (setBase b3 s,
         flash ++ Issue (Play Shutter) :: flashCmds
         ++ (if cameraFlash d && isFlashOn (state b)
             then [Issue (SetTimeout CameraFlashOff 100)] else [])
         ++ [EjectMediaAfter (frame d) MediaPhoto (isAiEnabled b)
                             (customText b) 4000])
      else (setBase b3 s, flash ++ Issue (Play Shutter) :: flashCmds)
  end
  end
  end.

End Capture.

Definition spawn (d : Dom) : Q * Q :=
  match cameraBodyRef d with
  | Some rect =>
      let halfWidth := (if Qlt_bool (innerWidth d) 640 then 88 else 104)%Q in
      ((rect_left rect + rect_width rect / 2 - halfWidth)%Q,
       (rect_bottom rect - 60)%Q)
  | None => (100%Q, 100%Q)
  end.

(** [ejectMedia(url, type)], with the [isAiEnabled] and [customText] of
    the render whose [takePhoto] started the capture. *)
Definition ejectMedia (d : Dom) (uuid : string) (now : Z)
    (url : string) (type : MediaType) (ai : bool) (text : string) (s : State)
  : State * list Effect :=
  let newPhoto :=
    Photo.mk uuid url now
             (* If AI is OFF, use the custom text as the main caption *)
             (if ai then None else Some text)
             false
             (match type with MediaPhoto => true | MediaVideo => false end)
             true None
             (fst (spawn d)) (snd (spawn d)) 0%Q 1 None (Some type) in
  (setBase (setPendingPhoto (Some newPhoto) (base s)) s,
   Issue (Play Printing)
   :: (if ai && match type with MediaPhoto => true | MediaVideo => false end
       then [Issue (GenerateCaption uuid url)] else [])
   ++ [ResetCaptureAfter 500; Issue (SetTimeout EjectionEnd 3000)]).

(** The callback of the 500 ms timer of [ejectMedia]. *)
Definition resetCapture (s : State) : State :=
  setIsRecording false (setBase (captureReset (base s)) s).

(** [handlePendingDragEnd] of that revision, on this state. *)
Definition handlePendingDragEnd (i : string) (x y random : Q) (d : Dom)
    (s : State) : State * list Cmd :=
  let r := Synced.handlePendingDragEnd i x y random d (synced s) in
  (mkState (fst r) (mode s) (isRecording s) (warningMsg s), snd r).

End Studio.

(** ** Proof tactics *)

Ltac takePhoto_split :=
  unfold App.takePhoto in *;
  repeat match goal with
         | |- context [match ?c with _ => _ end] => destruct c eqn:?
         | H : context [match ?c with _ => _ end] |- _ => destruct c eqn:?
         end.

Ltac in_cases H :=
  simpl in H;
  repeat match type of H with
         | _ \/ _ => destruct H as [H|H]
         end;
  try contradiction; try discriminate H.

(** ** A session of the shared-room revision *)

Module Session.

(** What can happen to the state modelled in [Synced]: the room input,
    the auth listener, and the callbacks of any run [g] of the effect,
    whenever the transport delivers them. *)
Inductive Event :=
| TypeRoom (v : string)
| AuthStateChange (u : option User)
| FetchResolved (g : nat) (data : option (list Row)) (d : Dom)
| ChangeFeed (g : nat) (p : Row) (d : Dom)
| CursorBroadcast (g : nat) (p : Presence.CursorPayload) (now : Z)
| FlashBroadcast
| SweepTick (now : Z)
| DragEnd (i : string) (x y random : Q) (d : Dom)
| InsertResolved (failed : bool).

Definition step (e : Event) (s : Synced.State) : Synced.State :=
  match e with
  | TypeRoom v => fst (Synced.changeRoom v s)
  | AuthStateChange u => fst (Synced.authChanged u s)
  | FetchResolved g data d => Synced.fetched g data d s
  | ChangeFeed g p d => fst (Synced.rowInserted g p d s)
  | CursorBroadcast g p now => Presence.receive g p now s
  | FlashBroadcast => fst (Synced.flashReceived s)
  | SweepTick now => Synced.sweepCursors now s
  | DragEnd i x y random d => fst (Synced.handlePendingDragEnd i x y random d s)
  | InsertResolved failed => fst (Synced.insertSettled failed s)
  end.

Definition run (es : list Event) (s : Synced.State) : Synced.State :=
  fold_left (fun s' e => step e s') es s.

(** The row that the table makes of an accepted insert: the table fills
    in the id ([gen_random_uuid()]), the creation time ([now()]) and the
    owner ([auth.uid()]). *)
Definition stored (newId : string) (createdAt : Z) (owner : string)
    (payload : InsertPayload) : Row :=
  mkRow newId createdAt (Some owner) (i_room_id payload) (i_data_url payload)
        (i_caption payload) (i_x payload) (i_y payload) (i_rotation payload)
        (i_z_index payload).

End Session.

(** ** What a session keeps of the effect's current run *)


(** * Properties *)

(** ** Helpers on the card store *)

Lemma find_id_In (i : string) (l : list Photo.t) :
  In i (map Photo.id l) ->
  exists p, find (fun e => (Photo.id e =? i)%string) l = Some p.
Proof.
  induction l as [|h t IH]; simpl; [tauto|].
  intros [H|H].
  - subst i. rewrite String.eqb_refl. eauto.
  - destruct (Photo.id h =? i)%string; eauto.
Qed.

Lemma find_id_not_In (i : string) (l : list Photo.t) :
  ~ In i (map Photo.id l) ->
  find (fun e => (Photo.id e =? i)%string) l = None.
Proof.
  induction l as [|h t IH]; simpl; [reflexivity|].
  intros H. destruct (String.eqb_spec (Photo.id h) i) as [E|E].
  - exfalso. apply H. now left.
  - apply IH. intros H'. apply H. now right.
Qed.

Lemma raise_ids (i : string) (z : Z) (l : list Photo.t) :
  map Photo.id (App.raise i z l) = map Photo.id l.
Proof.
  induction l as [|h t IH]; simpl; [reflexivity|].
  rewrite IH. now destruct (Photo.id h =? i)%string.
Qed.

Lemma settle_ids (i : string) (l : list Photo.t) :
  map Photo.id (App.settle i l) = map Photo.id l.
Proof.
  induction l as [|h t IH]; simpl; [reflexivity|].
  rewrite IH. now destruct (Photo.id h =? i)%string.
Qed.

Lemma setPhotos_same (s : App.AppState) : App.setPhotos (App.photos s) s = s.
Proof. now destruct s. Qed.

(** ** Singleton pending slot *)

Lemma takePhoto_occupied (d : Dom) (s : App.AppState) (pp : Photo.t) :
  App.pendingPhoto s = Some pp -> App.takePhoto d s = (s, []).
Proof. intros H. unfold App.takePhoto. now rewrite H. Qed.

(** C1. While the pending slot is occupied, a capture request, and so any
    sequence of capture requests, is a no-op: the state (the pending
    capture with it) is unchanged and no command is issued, so no ejection
    is scheduled that could put a second capture in the slot. The slot is
    an optional value: it never holds more than one capture. *)
Theorem capture_requests_while_occupied
    (ds : list Dom) (s : App.AppState) (pp : Photo.t) :
  App.pendingPhoto s = Some pp ->
  Ops.captureRequests ds s = (s, []) /\
  App.pendingPhoto (fst (Ops.captureRequests ds s)) = Some pp.
Proof.
  intros H.
  assert (E : Ops.captureRequests ds s = (s, [])).
  { induction ds as [|d ds IH]; simpl; [reflexivity|].
    rewrite (takePhoto_occupied d s pp H). simpl. now rewrite IH. }
  split; [exact E|]. now rewrite E.
Qed.

Lemma capture_requests_while_occupied_witness :
  App.pendingPhoto Demo.occupied = Some Demo.shot /\
  Ops.captureRequests [Demo.dom; Demo.dom] Demo.occupied = (Demo.occupied, []) /\
  App.pendingPhoto (fst (Ops.captureRequests [Demo.dom; Demo.dom] Demo.occupied))
  = Some Demo.shot.
Proof.
  split; [reflexivity|].
  apply (capture_requests_while_occupied [Demo.dom; Demo.dom] Demo.occupied
           Demo.shot).
  reflexivity.
Defined.

(** ** Idempotent remote-echo insertion *)

Lemma insertIfAbsent_present (newPhoto : Photo.t) (prev : list Photo.t) :
  In (Photo.id newPhoto) (map Photo.id prev) ->
  App.insertIfAbsent newPhoto prev = prev.
Proof.
  intros H. unfold App.insertIfAbsent.
  destruct (find_id_In _ _ H) as [p ->]. reflexivity.
Qed.

Lemma insertIfAbsent_In (newPhoto : Photo.t) (prev : list Photo.t) :
  In (Photo.id newPhoto) (map Photo.id (App.insertIfAbsent newPhoto prev)).
Proof.
  unfold App.insertIfAbsent.
  destruct (find _ prev) eqn:F.
  - apply find_some in F. destruct F as [F1 F2].
    apply String.eqb_eq in F2. rewrite <- F2. now apply in_map.
  - rewrite map_app. apply in_or_app. right. now left.
Qed.

Lemma rowInserted_again (p : Row) (s : App.AppState) :
  fst (App.rowInserted p (fst (App.rowInserted p s)))
  = fst (App.rowInserted p s).
Proof.
  unfold App.rowInserted. cbn [fst].
  set (np := App.photoOfRow true p).
  set (s1 := App.setPhotos (App.insertIfAbsent np (App.photos s)) s).
  assert (E : App.photos s1 = App.insertIfAbsent np (App.photos s))
    by reflexivity.
  rewrite E.
  rewrite (insertIfAbsent_present np (App.insertIfAbsent np (App.photos s)))
    by apply insertIfAbsent_In.
  rewrite <- E. apply setPhotos_same.
Qed.

(** C7. When the change feed delivers a row whose id is already in the
    card store, the handler leaves the whole state, and so the store,
    as it was: the store gets no second entry with that id and the entry
    it has keeps its x, y, rotation and stack order. Delivering any row
    twice gives the state that delivering it once gives. *)
Theorem echo_insert_idempotent (p : Row) (s : App.AppState) :
  In (r_id p) (map Photo.id (App.photos s)) ->
  fst (App.rowInserted p s) = s /\
  App.photos (fst (App.rowInserted p s)) = App.photos s /\
  (forall s0 : App.AppState,
      fst (App.rowInserted p (fst (App.rowInserted p s0)))
      = fst (App.rowInserted p s0)).
Proof.
  intros H.
  assert (E : fst (App.rowInserted p s) = s).
  { unfold App.rowInserted. simpl fst.
    rewrite insertIfAbsent_present by exact H. apply setPhotos_same. }
  split; [exact E|]. split; [now rewrite E|].
  intros s0. apply rowInserted_again.
Qed.

Lemma echo_insert_idempotent_witness :
  In (r_id (Demo.row "c1" "demo" 5 31))
     (map Photo.id (App.photos
        (App.setPhotos [Demo.card "c1" 40] Demo.signedIn))) /\
  fst (App.rowInserted (Demo.row "c1" "demo" 5 31)
         (App.setPhotos [Demo.card "c1" 40] Demo.signedIn))
  = App.setPhotos [Demo.card "c1" 40] Demo.signedIn.
Proof.
  split; [simpl; now left|].
  apply (echo_insert_idempotent (Demo.row "c1" "demo" 5 31)
           (App.setPhotos [Demo.card "c1" 40] Demo.signedIn)).
  simpl. now left.
Defined.

(** ** Reset *)

(** C10. The Reset button empties the card store and changes nothing
    else: the pending capture, the stack-order counter, the film count,
    the reloading flag, the room key and every other state variable are
    as before, the installed drag listeners too, and no command, hence no
    request to the remote store, is issued. *)
Theorem reset_only_empties_store (w : Run.World) :
  let s := Run.app w in
  let s' := Run.app (Run.step (Run.ByUser Run.PressResetButton) w) in
  App.photos s' = [] /\
  App.pendingPhoto s' = App.pendingPhoto s /\
  App.maxZIndex s' = App.maxZIndex s /\
  App.shotsLeft s' = App.shotsLeft s /\
  App.isReloading s' = App.isReloading s /\
  App.room s' = App.room s /\
  s' = App.setPhotos [] s /\
  Run.listeners (Run.step (Run.ByUser Run.PressResetButton) w) = Run.listeners w /\
  snd (App.reset s) = [].
Proof. simpl. repeat split. Qed.

(** ** Remote write failure *)

(** C6. Drag-to-keep by a signed-in user: up to the request the state is
    untouched. When the request settles, in whatever state [later] the
    application then is, with an error or without, the pending slot is
    emptied and the stack-order counter advanced, and the two outcomes
    leave the same state: nothing is rolled back, no other state variable
    moves. The error adds only the console message and the alert. *)
Theorem keep_failure_clears_slot
    (i : string) (x y random : Q) (s later : App.AppState)
    (u : User) (pp : Photo.t) :
  App.user s = Some u ->
  App.pendingPhoto s = Some pp ->
  Photo.id pp = i ->
  fst (App.handlePendingDragEnd i x y random s) = s /\
  fst (App.insertSettled true later) = fst (App.insertSettled false later) /\
  fst (App.insertSettled true later)
  = App.setPendingPhoto None
      (App.setMaxZIndex (App.maxZIndex later + 1) later) /\
  App.pendingPhoto (fst (App.insertSettled true later)) = None /\
  App.photos (fst (App.insertSettled true later)) = App.photos later /\
  snd (App.insertSettled true later)
  = [ConsoleError "Error saving photo:";
     Alert "Failed to save photo to the cloud!"] /\
  snd (App.insertSettled false later) = [].
Proof.
  intros Hu Hp Hi. unfold App.handlePendingDragEnd.
  rewrite Hp, Hu, Hi, String.eqb_refl. simpl. repeat split.
Qed.

Lemma keep_failure_clears_slot_witness :
  App.user Demo.signedIn = Some Demo.alice /\
  App.pendingPhoto Demo.signedIn = Some Demo.ready /\
  Photo.id Demo.ready = "p1"%string /\
  App.pendingPhoto
    (fst (App.insertSettled true
            (fst (App.handlePendingDragEnd "p1" 120 340 (1 # 2) Demo.signedIn))))
  = None.
Proof.
  repeat (split; [reflexivity|]).
  apply (keep_failure_clears_slot "p1" 120 340 (1 # 2) Demo.signedIn
           (fst (App.handlePendingDragEnd "p1" 120 340 (1 # 2) Demo.signedIn))
           Demo.alice Demo.ready); reflexivity.
Defined.

(** ** Coordinates of the remote insert *)

Lemma fraction_in_unit (a w : Q) :
  (0 < w)%Q -> (inUnit (a / w) <-> (0 <= a)%Q /\ (a <= w)%Q).
Proof.
  intros Hw. unfold inUnit.
  assert (Hne : ~ (w == 0)%Q).
  { intros E. rewrite E in Hw. now apply Qlt_irrefl in Hw. }
  assert (Ea : (a == (a / w) * w)%Q) by (field; exact Hne).
  split; intros [H0 H1]; split.
  - rewrite Ea. apply Qmult_le_0_compat; [exact H0|now apply Qlt_le_weak].
  - apply Qle_trans with ((a / w) * w)%Q; [now rewrite <- Ea; apply Qle_refl|].
    apply Qle_trans with (1 * w)%Q; [|rewrite Qmult_1_l; apply Qle_refl].
    apply Qmult_le_compat_r; [exact H1|now apply Qlt_le_weak].
  - apply Qle_shift_div_l; [exact Hw|]. now rewrite Qmult_0_l.
  - apply Qle_shift_div_r; [exact Hw|]. now rewrite Qmult_1_l.
Qed.

(** C5, as the sources have it. Drag-to-keep by a signed-in user leaves
    the state, and so the card store, as it is and issues one insert
    request carrying the room, the payload, the caption, the rotation and
    the stack order [maxZIndex + 1]. In the shared-room revision the
    coordinates are the drop point divided by the viewport width and
    height: each fraction lies in the 0-1 range exactly when the drop
    point lies within the viewport on that axis; nothing clamps it. In
    [src/App.tsx] the coordinates are the drop point itself, in pixels. *)
Theorem keep_sends_viewport_fractions
    (i : string) (x y random : Q) (d : Dom) (s : Synced.State)
    (u : User) (pp : Photo.t) :
  App.user (Synced.base s) = Some u ->
  App.pendingPhoto (Synced.base s) = Some pp ->
  Photo.id pp = i ->
  (0 < innerWidth d)%Q ->
  (0 < innerHeight d)%Q ->
  Synced.handlePendingDragEnd i x y random d s
  = (s, [RemoteInsert
           (mkInsertPayload (App.room (Synced.base s)) (Photo.dataUrl pp)
              (Photo.caption pp) (x / innerWidth d)%Q (y / innerHeight d)%Q
              (App.tilt random) (App.maxZIndex (Synced.base s) + 1))]) /\
  (inUnit (x / innerWidth d) <-> (0 <= x)%Q /\ (x <= innerWidth d)%Q) /\
  (inUnit (y / innerHeight d) <-> (0 <= y)%Q /\ (y <= innerHeight d)%Q) /\
  App.handlePendingDragEnd i x y random (Synced.base s)
  = (Synced.base s,
     [RemoteInsert
        (mkInsertPayload (App.room (Synced.base s)) (Photo.dataUrl pp)
           (Photo.caption pp) x y (App.tilt random)
           (App.maxZIndex (Synced.base s) + 1))]).
Proof.
  intros Hu Hp Hi Hw Hh. split; [|split; [|split]].
  - unfold Synced.handlePendingDragEnd.
    rewrite Hp, Hu, Hi, String.eqb_refl. reflexivity.
  - now apply fraction_in_unit.
  - now apply fraction_in_unit.
  - unfold App.handlePendingDragEnd.
    rewrite Hp, Hu, Hi, String.eqb_refl. reflexivity.
Qed.

Lemma keep_sends_viewport_fractions_witness :
  App.user (Synced.base Demo.shared) = Some Demo.alice /\
  App.pendingPhoto (Synced.base Demo.shared) = Some Demo.ready /\
  Photo.id Demo.ready = "p1"%string /\
  (0 < innerWidth Demo.dom)%Q /\
  (0 < innerHeight Demo.dom)%Q /\
  Synced.handlePendingDragEnd "p1" 120 340 (1 # 2) Demo.dom Demo.shared
  = (Demo.shared,
     [RemoteInsert
        (mkInsertPayload "global" Demo.jpeg None (120 / 1000)%Q (340 / 800)%Q
           (App.tilt (1 # 2)) 31)]).
Proof.
  repeat (split; [reflexivity|]).
  apply (keep_sends_viewport_fractions "p1" 120 340 (1 # 2) Demo.dom
           Demo.shared Demo.alice Demo.ready); reflexivity.
Defined.

(** C5 in its stated form fails. In the shared-room revision a card
    dropped with its left edge 10 pixels left of a 1000 pixel wide
    viewport is sent with x = -10/1000; and [src/App.tsx] sends the drop
    point (120, 340) as it is, in pixels. *)
Lemma keep_payload_outside_unit_range :
  (exists payload,
      snd (Synced.handlePendingDragEnd "p1" (-10 # 1) 340 (1 # 2) Demo.dom
             Demo.shared) = [RemoteInsert payload] /\
      ~ normalised payload) /\
  (exists payload,
      snd (App.handlePendingDragEnd "p1" 120 340 (1 # 2) Demo.signedIn)
      = [RemoteInsert payload] /\
      ~ normalised payload).
Proof.
  split.
  - eexists. split; [reflexivity|].
    intros [[H _] _]. revert H. compute. intros H. now apply H.
  - eexists. split; [reflexivity|].
    intros [[_ H] _]. revert H. compute. intros H. now apply H.
Qed.

(** ** Late caption *)

Lemma recaption_hit (i cap : string) (l : list Photo.t) (p : Photo.t) :
  In p l -> Photo.id p = i ->
  In (Photo.with_caption cap p) (Offline.recaption i cap l).
Proof.
  intros Hin Hid. unfold Offline.recaption.
  apply in_map_iff. exists p. split; [|exact Hin].
  now rewrite Hid, String.eqb_refl.
Qed.

(** In the local-only revision the caption follows the capture into the
    store: after drag-to-keep, the stored entry of that id, at its final
    placement, carries the caption that resolves later. *)
Lemma offline_late_caption_reaches_store
    (x y random : Q) (cap : string) (s : App.AppState) (pp : Photo.t) :
  App.pendingPhoto s = Some pp ->
  In (Photo.with_caption cap
        (Photo.placed x y (App.tilt random) (App.maxZIndex s + 1) pp))
     (App.photos
        (Offline.captionArrived (Photo.id pp) cap
           (Offline.handlePendingDragEnd (Photo.id pp) x y random s))).
Proof.
  intros Hp. unfold Offline.handlePendingDragEnd.
  rewrite Hp, String.eqb_refl. simpl.
  apply recaption_hit; [|reflexivity].
  apply in_or_app. right. now left.
Qed.

(** In [src/App.tsx] the continuation only looks at the pending slot:
    once the capture was kept, a caption that resolves changes nothing. *)
Lemma caption_after_keep_is_dropped
    (x y random : Q) (cap : string) (s : App.AppState) (pp : Photo.t) :
  App.user s = None ->
  App.pendingPhoto s = Some pp ->
  let kept := fst (App.handlePendingDragEnd (Photo.id pp) x y random s) in
  App.captionArrived (Photo.id pp) cap kept = kept /\
  App.photos kept
  = App.photos s
    ++ [Photo.placed x y (App.tilt random) (App.maxZIndex s + 1) pp].
Proof.
  intros Hu Hp. unfold App.handlePendingDragEnd.
  rewrite Hp, Hu, String.eqb_refl. simpl. split; reflexivity.
Qed.

(** C8 on [src/App.tsx]: a signed-out user keeps the capture p1 at
    (120, 340) before its caption resolves; the caption then resolves.
    The stored entry p1 still has no caption, where the local-only
    revision, run on the same events, stores it. *)
Theorem late_caption_misses_settled_entry :
  map (fun p => (Photo.id p, Photo.caption p)) (App.photos Demo.captionedLate)
  = [("p1"%string, None)] /\
  App.pendingPhoto Demo.captionedLate = None /\
  Demo.captionedLate = Demo.keptEarly /\
  map (fun p => (Photo.id p, Photo.caption p))
      (App.photos
         (Offline.captionArrived "p1" "Summer of 89"
            (Offline.handlePendingDragEnd "p1" 120 340 (1 # 2) Demo.awaiting)))
  = [("p1"%string, Some "Summer of 89"%string)].
Proof. repeat split. Qed.

(** ** Fetch on join *)

Lemma max_of_ge (zs : list Z) (z : Z) :
  z <= max_of z zs /\ Forall (fun a => a <= max_of z zs) zs.
Proof.
  unfold max_of. revert z.
  induction zs as [|a zs IH]; intros z; simpl.
  - split; [lia|constructor].
  - destruct (IH (Z.max z a)) as [H1 H2]. split; [lia|].
    constructor; [lia|exact H2].
Qed.

Lemma Math_max_ge (zs : list Z) (m : Z) :
  Math_max zs = Some m -> Forall (fun a => a <= m) zs.
Proof.
  destruct zs as [|z zs]; simpl; [discriminate|].
  intros [= <-]. destruct (max_of_ge zs z). now constructor.
Qed.

Lemma max_of_In (zs : list Z) (z : Z) : In (max_of z zs) (z :: zs).
Proof.
  unfold max_of. revert z.
  induction zs as [|a zs IH]; intros z; simpl; [now left|].
  destruct (IH (Z.max z a)) as [H|H].
  - destruct (Z.max_spec z a) as [[_ E]|[_ E]]; rewrite E in *; auto.
  - right. now right.
Qed.

(** The parts of the fetch that hold: every fetched row is stored, in the
    order of the answer, as a settled card (neither developing nor
    ejecting); when rows came, the counter becomes one above the highest
    fetched stack order; it stays when the answer has no rows or is an
    error. *)
Lemma fetched_seeds_settled (rows : list Row) (s : App.AppState) :
  let s' := App.fetched (Some rows) s in
  map Photo.id (App.photos s') = map r_id rows /\
  Forall (fun p => Photo.isDeveloping p = false /\ Photo.isEjecting p = false)
         (App.photos s') /\
  (rows <> [] ->
   exists m, In m (map r_z_index rows) /\
             Forall (fun r => r_z_index r <= m) rows /\
             App.maxZIndex s' = m + 1) /\
  (rows = [] -> App.maxZIndex s' = App.maxZIndex s) /\
  App.fetched None s = s.
Proof.
  unfold App.fetched.
  assert (Ez : map Photo.zIndex (map (App.photoOfRow false) rows)
               = map r_z_index rows) by (now rewrite map_map).
  rewrite Ez.
  destruct rows as [|r rows]; simpl.
  - repeat split; try constructor; congruence.
  - repeat split.
    + f_equal. now rewrite map_map.
    + constructor; [now split|].
      apply List.Forall_forall. intros p Hp. apply in_map_iff in Hp.
      destruct Hp as [r' [<- _]]. now split.
    + intros _. exists (max_of (r_z_index r) (map r_z_index rows)).
      split; [apply (max_of_In (map r_z_index rows) (r_z_index r))|].
      split; [|reflexivity].
      destruct (max_of_ge (map r_z_index rows) (r_z_index r)) as [H1 H2].
      constructor; [exact H1|].
      rewrite List.Forall_forall in *. intros r' Hr'.
      apply H2. now apply in_map.
    + discriminate.
Qed.

(** C4 on a room with 51 cards: the query of [fetchPhotos] (oldest first,
    limit 50) answers with the 50 oldest. The store is seeded with 50
    cards among which the oldest card is present and the newest is
    missing, whereas the 50 most recently created cards contain the
    newest and not the oldest. *)
Theorem fetch_keeps_oldest_fifty :
  length (App.photos Demo.joined) = 50%nat /\
  existsb (String.eqb Demo.newest) (map Photo.id (App.photos Demo.joined))
  = false /\
  existsb (String.eqb Demo.oldest) (map Photo.id (App.photos Demo.joined))
  = true /\
  existsb (String.eqb Demo.newest)
          (map r_id (Remote.mostRecent "demo" 50 Demo.crowded)) = true /\
  existsb (String.eqb Demo.oldest)
          (map r_id (Remote.mostRecent "demo" 50 Demo.crowded)) = false /\
  App.maxZIndex Demo.joined = 81.
Proof. vm_compute. repeat split. Qed.

(** ** Room switch *)

Lemma reachable_run (es : list Run.Event) (w : Run.World) :
  Run.reachable w -> Run.admissibleRun es w -> Run.reachable (Run.run es w).
Proof.
  revert w. induction es as [|e es IH]; intros w Hw Ha; simpl; [exact Hw|].
  destruct Ha as [Ha1 Ha2]. apply IH; [|exact Ha2].
  now apply Run.reachable_step.
Qed.

Lemma changeRoom_marks_previous_run
    (v : string) (s : Synced.State) (g : nat) (r : Synced.EffectRun) :
  Synced.current s = Some g ->
  Synced.runs s !! g = Some r ->
  v <> App.room (Synced.base s) ->
  let s' := fst (Synced.changeRoom v s) in
  Synced.runs s' !! g = Some (Synced.with_ignore true r) /\
  App.photos (Synced.base s') = [] /\
  App.room (Synced.base s') = v.
Proof.
  intros Hc Hr Hv.
  assert (Hlt : (g < length (Synced.runs s))%nat)
    by (eapply lookup_lt_Some; exact Hr).
  assert (Hg : <[g := Synced.with_ignore true r]> (Synced.runs s) !! g
               = Some (Synced.with_ignore true r))
    by (now apply list_lookup_insert_eq).
  unfold Synced.changeRoom.
  destruct (String.eqb_spec v (App.room (Synced.base s))) as [E|_];
    [contradiction|].
  unfold Synced.rerun, Synced.cleanup, Synced.roomEffect. simpl.
  rewrite Hc, Hr. simpl.
  destruct (App.user (Synced.base s)) as [u|]; simpl.
  - split; [|split; reflexivity].
    rewrite lookup_app_l by (now rewrite length_insert). exact Hg.
  - split; [exact Hg|split; reflexivity].
Qed.

(** The shared-room revision: once the room changed, the run of the effect
    that served the previous room has its [ignore] variable set, and
    neither the answer to its fetch nor a row from its change feed
    touches the state; the switch itself empties the card store. *)
Lemma synced_switch_ignores_previous_room
    (v : string) (s : Synced.State) (g : nat) (r : Synced.EffectRun) :
  Synced.current s = Some g ->
  Synced.runs s !! g = Some r ->
  v <> App.room (Synced.base s) ->
  let s' := fst (Synced.changeRoom v s) in
  App.photos (Synced.base s') = [] /\
  App.room (Synced.base s') = v /\
  (forall data d, Synced.fetched g data d s' = s') /\
  (forall p d, Synced.rowInserted g p d s' = (s', [])).
Proof.
  intros Hc Hr Hv s'.
  destruct (changeRoom_marks_previous_run v s g r Hc Hr Hv) as [Hg [Hp Hroom]].
  fold s' in Hg, Hp, Hroom.
  split; [exact Hp|]. split; [exact Hroom|]. split.
  - intros data d. unfold Synced.fetched. rewrite Hg. now destruct data.
  - intros p d. unfold Synced.rowInserted. now rewrite Hg.
Qed.

(** The cursor callback has no such guard: a cursor broadcast delivered
    to the callback of the previous run still enters the presence map. *)
Lemma synced_cursor_of_previous_room_applied
    (v userId col : string) (x y : Q) (now : Z)
    (s : Synced.State) (g : nat) (r : Synced.EffectRun) :
  Synced.current s = Some g ->
  Synced.runs s !! g = Some r ->
  v <> App.room (Synced.base s) ->
  userId <> uid (Synced.run_user r) ->
  let s' := fst (Synced.changeRoom v s) in
  Synced.cursors (Synced.cursorReceived g userId x y col now s') !! userId
  = Some (Synced.mkCursor x y col now).
Proof.
  intros Hc Hr Hv Hu s'.
  destruct (changeRoom_marks_previous_run v s g r Hc Hr Hv) as [Hg _].
  fold s' in Hg. unfold Synced.cursorReceived. rewrite Hg.
  cbn [Synced.run_user Synced.with_ignore].
  destruct (String.eqb_spec userId (uid (Synced.run_user r))); [contradiction|].
  cbn [Synced.cursors Synced.setCursors]. apply lookup_insert_eq.
Qed.

(** C2 on [src/App.tsx], whose effect has no [ignore] flag. A signed-in
    user switches from room global to room b while the fetch for global
    is in flight; the answer for b arrives, then the late answer for
    global. The world is reachable, the two fetches were issued, the
    channel of global was removed, the room is b, and the card store
    holds the card of room global. *)
Theorem stale_fetch_lands_in_new_room :
  Run.reachable Demo.strayed /\
  snd (App.authChanged (Some Demo.alice) App.initial)
  = [RemoteSelect "global" 50; Subscribe "room:global"] /\
  snd (App.changeRoom "b" (fst (App.authChanged (Some Demo.alice) App.initial)))
  = [RemoveChannel "room:global"; RemoteSelect "b" 50; Subscribe "room:b"] /\
  App.room (Run.app Demo.strayed) = "b"%string /\
  App.photos (Run.app Demo.strayed) = [App.photoOfRow false Demo.lateAnswer] /\
  r_room_id Demo.lateAnswer = "global"%string.
Proof.
  split; [|repeat split].
  apply reachable_run; [apply Run.reachable_boot|].
  simpl. repeat split; intros pp H; discriminate H.
Qed.

(** ** Stack order *)


Lemma bringToFront_photos (i : string) (s : App.AppState) :
  App.photos (App.bringToFront i s)
  = App.raise i (App.maxZIndex s + 1) (App.photos s).
Proof.
  unfold App.bringToFront.
  destruct (App.pendingPhoto s) as [pp|]; [|reflexivity].
  now destruct (Photo.id pp =? i)%string.
Qed.


Lemma bringToFront_user (i : string) (s : App.AppState) :
  App.user (App.bringToFront i s) = App.user s.
Proof.
  unfold App.bringToFront.
  destruct (App.pendingPhoto s) as [pp|]; [|reflexivity].
  now destruct (Photo.id pp =? i)%string.
Qed.




(** The handler of a render, called in the state of that render, is the
    handler as [App.handlePendingDragEnd] has it. *)
Lemma handlePendingDragEndOf_render
    (i : string) (x y random : Q) (s : App.AppState) :
  App.handlePendingDragEndOf (App.render s) i x y random s
  = App.handlePendingDragEnd i x y random s.
Proof. reflexivity. Qed.


(** What a press on the pending card does. *)
Lemma pressPending_cases (w : Run.World) :
  (Run.pressPending false w = (w, None)) \/
  (exists pp,
     App.pendingPhoto (Run.app w) = Some pp /\
     Run.pressPending false w
     = (Run.mkWorld (App.bringToFront (Photo.id pp) (Run.app w))
                    (App.render (Run.app w) :: Run.listeners w),
        Some (App.render (Run.app w)))).
Proof.
  unfold Run.pressPending.
  destruct (App.pendingPhoto (Run.app w)) as [pp|] eqn:Hp; [|now left].
  unfold Polaroid.handleStart. cbn.
  destruct (Photo.isEjecting pp); [left; now destruct w|right].
  now exists pp.
Qed.

(** What the release of the listeners of a render does: nothing to the
    state (no capture in that render, or a signed-in one, whose request
    goes out), or the capture of that render is appended to the store
    with the stack order that render's counter gives, the counter goes
    up by one and the slot is emptied, whatever it holds. *)
Lemma release_cases (l : App.Render) (x y random : Q) (w : Run.World) :
  Run.app (Run.release l x y random w) = Run.app w \/
  (exists pp c,
     App.seenPendingPhoto l = Some pp /\
     App.seenUser l = None /\
     Photo.id c = Photo.id pp /\
     Photo.zIndex c = App.seenMaxZIndex l + 1 /\
     Run.app (Run.release l x y random w)
     = App.setPendingPhoto None
         (App.setMaxZIndex (App.maxZIndex (Run.app w) + 1)
            (App.setPhotos (App.photos (Run.app w) ++ [c]) (Run.app w)))).
Proof.
  unfold Run.release.
  destruct (App.seenPendingPhoto l) as [pp|] eqn:Hp; [|now left].
  unfold Polaroid.handleWindowUp, App.handlePendingDragEndOf.
  cbn. rewrite Hp, String.eqb_refl. cbn.
  destruct (App.seenUser l) eqn:Hu; [now left|right].
  exists pp,
    (Photo.placed (Photo.x pp - 20 + x)%Q (Photo.y pp + y)%Q (App.tilt random)
                  (App.seenMaxZIndex l + 1) pp).
  repeat split; reflexivity.
Qed.


Lemma below_initial : Ops.below App.initial.
Proof. constructor. Qed.

(** A fetch leaves no stored card above the counter. *)
Lemma below_fetched (rows : list Row) (s : App.AppState) :
  Ops.below (App.fetched (Some rows) s).
Proof.
  unfold Ops.below.
  destruct (fetched_seeds_settled rows s) as [_ [_ [Hmax _]]].
  assert (Hph : App.photos (App.fetched (Some rows) s)
                = map (App.photoOfRow false) rows).
  { unfold App.fetched. now destruct (Math_max _). }
  rewrite Hph.
  destruct rows as [|r rows]; [constructor|].
  destruct Hmax as [m [_ [Hle Hm]]]; [discriminate|].
  rewrite Hm. apply List.Forall_forall. intros p Hp.
  apply in_map_iff in Hp. destruct Hp as [r' [<- Hr']]. simpl.
  rewrite List.Forall_forall in Hle. specialize (Hle r' Hr'). lia.
Qed.




(** ** Ejection *)

Lemma takePhoto_frame (d : Dom) (s : App.AppState) :
  App.pendingPhoto (fst (App.takePhoto d s)) = App.pendingPhoto s /\
  App.photos (fst (App.takePhoto d s)) = App.photos s.
Proof.
  unfold App.takePhoto.
  repeat match goal with
         | |- context [match ?c with _ => _ end] => destruct c eqn:?
         end; simpl; auto.
Qed.

Lemma handleReload_frame (s : App.AppState) :
  App.pendingPhoto (fst (App.handleReload s)) = App.pendingPhoto s /\
  App.photos (fst (App.handleReload s)) = App.photos s.
Proof. unfold App.handleReload. destruct (App.isReloading s); simpl; auto. Qed.

Lemma roomEffect_frame (s : App.AppState) :
  App.pendingPhoto (fst (App.roomEffect s)) = App.pendingPhoto s /\
  (App.photos (fst (App.roomEffect s)) = App.photos s \/
   App.photos (fst (App.roomEffect s)) = []).
Proof. unfold App.roomEffect. destruct (App.user s); simpl; auto. Qed.

Lemma changeRoom_frame (v : string) (s : App.AppState) :
  App.pendingPhoto (fst (App.changeRoom v s)) = App.pendingPhoto s /\
  (App.photos (fst (App.changeRoom v s)) = App.photos s \/
   App.photos (fst (App.changeRoom v s)) = []).
Proof.
  unfold App.changeRoom. destruct (v =? App.room s)%string; simpl; auto.
  apply (roomEffect_frame (App.setRoom v s)).
Qed.

Lemma authChanged_frame (u : option User) (s : App.AppState) :
  App.pendingPhoto (fst (App.authChanged u s)) = App.pendingPhoto s /\
  (App.photos (fst (App.authChanged u s)) = App.photos s \/
   App.photos (fst (App.authChanged u s)) = []).
Proof.
  unfold App.authChanged.
  destruct (App.user s), u; simpl; auto;
    apply (roomEffect_frame (App.setUser _ s)).
Qed.

Lemma toggleFlash_frame (s : App.AppState) :
  App.pendingPhoto (App.toggleFlash s) = App.pendingPhoto s /\
  App.photos (App.toggleFlash s) = App.photos s.
Proof. unfold App.toggleFlash. destruct (isPoweredOn (App.state s)); auto. Qed.

Lemma bringToFront_other (i : string) (s : App.AppState) (pp : Photo.t) :
  App.pendingPhoto s = Some pp ->
  Photo.id pp <> i ->
  App.pendingPhoto (App.bringToFront i s) = Some pp.
Proof.
  intros Hp Hi. unfold App.bringToFront. rewrite Hp.
  destruct (String.eqb_spec (Photo.id pp) i); [contradiction|exact Hp].
Qed.

Lemma bringToFront_ids (i : string) (s : App.AppState) :
  map Photo.id (App.photos (App.bringToFront i s)) = map Photo.id (App.photos s).
Proof. rewrite bringToFront_photos. apply raise_ids. Qed.

Lemma insertIfAbsent_ids (n : Photo.t) (l : list Photo.t) (i : string) :
  In i (map Photo.id (App.insertIfAbsent n l)) ->
  In i (map Photo.id l) \/ i = Photo.id n.
Proof.
  unfold App.insertIfAbsent. destruct (find _ l); [now left|].
  rewrite map_app. intros H. apply in_app_or in H.
  destruct H as [H|[H|[]]]; [now left|right; now symmetry].
Qed.

Lemma coherent_frame (w w' : Run.World) :
  Run.coherent w ->
  (forall pp', App.pendingPhoto (Run.app w') = Some pp' ->
     exists pp, App.pendingPhoto (Run.app w) = Some pp /\
                Photo.id pp' = Photo.id pp) ->
  (forall i, In i (map Photo.id (App.photos (Run.app w'))) ->
             In i (map Photo.id (App.photos (Run.app w)))) ->
  Run.coherent w'.
Proof.
  intros Hc Hp Hids pp' Hpp'.
  destruct (Hp pp' Hpp') as [pp [Hpp Hid]].
  intros Hin. apply (Hc pp Hpp). rewrite <- Hid. now apply Hids.
Qed.

Lemma coherent_keep (w w' : Run.World) :
  Run.coherent w ->
  App.pendingPhoto (Run.app w') = App.pendingPhoto (Run.app w) ->
  App.photos (Run.app w') = App.photos (Run.app w) ->
  Run.coherent w'.
Proof. intros Hc E1 E2 pp. rewrite E1, E2. apply Hc. Qed.

Lemma coherent_app (w w' : Run.World) :
  Run.coherent w -> Run.app w' = Run.app w -> Run.coherent w'.
Proof. intros Hc E. apply (coherent_keep w); [exact Hc| |]; now rewrite E. Qed.

Lemma bringToFront_pending (i : string) (s : App.AppState) (pp' : Photo.t) :
  App.pendingPhoto (App.bringToFront i s) = Some pp' ->
  exists pp, App.pendingPhoto s = Some pp /\ Photo.id pp' = Photo.id pp.
Proof.
  unfold App.bringToFront.
  destruct (App.pendingPhoto s) as [pp|] eqn:Hp; simpl.
  - destruct (Photo.id pp =? i)%string; simpl.
    + rewrite Hp. intros [= <-]. exists pp. simpl. auto.
    + rewrite Hp. intros [= <-]. exists pp. auto.
  - rewrite Hp. discriminate.
Qed.

Lemma coherent_bringToFront (i : string) (w w' : Run.World) :
  Run.coherent w ->
  Run.app w' = App.bringToFront i (Run.app w) ->
  Run.coherent w'.
Proof.
  intros Hc E. apply (coherent_frame w); [exact Hc| |]; rewrite E.
  - apply bringToFront_pending.
  - intros j. now rewrite bringToFront_ids.
Qed.

Lemma coherent_user_step (u : Run.UserEvent) (w : Run.World) :
  Run.coherent w -> Run.coherent (Run.user_step u w).
Proof.
  intros Hc. destruct u; cbn [Run.user_step].
  - destruct (takePhoto_frame d (Run.app w)) as [Hp Hph].
    apply (coherent_frame w); simpl; auto.
    + rewrite Hp. intros pp' H. exists pp'. auto.
    + now rewrite Hph.
  - destruct (handleReload_frame (Run.app w)) as [Hp Hph].
    apply (coherent_frame w); simpl; auto.
    + rewrite Hp. intros pp' H. exists pp'. auto.
    + now rewrite Hph.
  - apply (coherent_frame w); simpl; auto.
    + intros pp' H. exists pp'. auto.
    + intros i [].
  - apply (coherent_keep w); auto.
  - destruct (toggleFlash_frame (Run.app w)) as [Hp Hph].
    apply (coherent_frame w); simpl; auto.
    + rewrite Hp. intros pp' H. exists pp'. auto.
    + now rewrite Hph.
  - apply (coherent_keep w); auto.
  - apply (coherent_keep w); auto.
  - destruct (App.user (Run.app w)); [exact Hc|].
    apply (coherent_keep w); auto.
  - destruct (changeRoom_frame v (Run.app w)) as [Hp Hph].
    apply (coherent_frame w); simpl; auto.
    + rewrite Hp. intros pp' H. exists pp'. auto.
    + destruct Hph as [-> | ->]; [auto|intros i []].
  - apply (coherent_keep w); auto.
  - destruct (pressPending_cases w) as [E|[pp [Hp E]]].
    + unfold Run.pressPending in *.
      destruct (App.pendingPhoto (Run.app w)) as [pp|]; [|exact Hc].
      destruct (snd (Polaroid.handleStart _ onTextarea _ _)) eqn:S; cbn [fst].
      * apply (coherent_bringToFront (Photo.id pp) w); [exact Hc|].
        revert S. unfold Polaroid.handleStart. cbn.
        destruct onTextarea; [discriminate|].
        now destruct (Photo.isEjecting pp).
      * apply (coherent_app w); [exact Hc|].
        revert S. unfold Polaroid.handleStart. cbn.
        destruct onTextarea; [reflexivity|].
        now destruct (Photo.isEjecting pp).
    + unfold Run.pressPending in *. rewrite Hp in *.
      destruct (snd (Polaroid.handleStart _ onTextarea _ _)) eqn:S; cbn [fst].
      * apply (coherent_bringToFront (Photo.id pp) w); [exact Hc|].
        revert S. unfold Polaroid.handleStart. cbn.
        destruct onTextarea; [discriminate|].
        now destruct (Photo.isEjecting pp).
      * apply (coherent_app w); [exact Hc|].
        revert S. unfold Polaroid.handleStart. cbn.
        destruct onTextarea; [reflexivity|].
        now destruct (Photo.isEjecting pp).
  - unfold Run.pressCard.
    destruct (find _ (App.photos (Run.app w))) as [c|]; [|exact Hc].
    cbn [fst]. unfold Polaroid.handleStart.
    destruct onTextarea; [apply (coherent_keep w); auto|].
    destruct (Photo.isEjecting c); [apply (coherent_keep w); auto|].
    now apply (coherent_bringToFront (Photo.id c) w).
  - destruct (release_cases l x y random w)
      as [E|[pp [c (_ & _ & _ & _ & E)]]].
    + now apply (coherent_app w).
    + intros pp' H. rewrite E in H. discriminate H.
Qed.

Lemma coherent_system_step (e : Run.SystemEvent) (w : Run.World) :
  Run.coherent w ->
  Run.admissible w (Run.BySystem e) ->
  Run.coherent (Run.system_step e w).
Proof.
  intros Hc Ha. destruct e as [t d uuid now|i cap|data|failed|p|u|answer]; simpl.
  - destruct t; simpl.
    + apply (coherent_keep w); auto.
    + apply (coherent_keep w); auto.
    + simpl in Ha. destruct Ha as [Hfresh _].
      intros pp' H. simpl in H. injection H as <-. exact Hfresh.
    + apply (coherent_keep w); auto.
    + apply (coherent_frame w); simpl; auto.
      intros pp' H.
      destruct (App.pendingPhoto (Run.app w)) as [pp|]; [|discriminate H].
      injection H as <-. exists pp. auto.
    + apply (coherent_frame w); simpl; auto.
      * intros pp' H. exists pp'. auto.
      * intros j. now rewrite settle_ids.
    + apply (coherent_frame w); simpl; auto.
      intros pp' H. exists pp'. auto.
  - apply (coherent_frame w); simpl; auto.
    intros pp' H.
    destruct (App.pendingPhoto (Run.app w)) as [pp|]; [|discriminate H].
    exists pp. split; [reflexivity|].
    destruct (Photo.id pp =? i)%string; injection H as <-; simpl; auto.
  - destruct data as [rows|]; [|now apply (coherent_keep w)].
    intros pp' H.
    assert (Hp : App.pendingPhoto (Run.app w) = Some pp').
    { revert H. unfold App.fetched. simpl.
      now destruct (Math_max _). }
    assert (Hids : map Photo.id
                     (App.photos (App.fetched (Some rows) (Run.app w)))
                   = map r_id rows)
      by apply fetched_seeds_settled.
    cbn [Run.app]. rewrite Hids. now apply Ha.
  - intros pp' H. discriminate H.
  - intros pp' H. simpl in H. simpl. intros Hin.
    apply insertIfAbsent_ids in Hin.
    destruct Hin as [Hin|Hin]; [now apply (Hc pp' H)|].
    simpl in Hin. now apply (Ha pp' H).
  - change (Run.coherent
              (Run.mkWorld (fst (App.authChanged u (Run.app w)))
                           (Run.listeners w))).
    destruct (authChanged_frame u (Run.app w)) as [Hp Hph].
    apply (coherent_frame w); cbn [Run.app Run.listeners]; auto.
    + rewrite Hp. intros pp' H. exists pp'. auto.
    + destruct Hph as [-> | ->]; [auto|intros i []].
  - apply (coherent_keep w); [exact Hc| |]; now destruct answer.
Qed.

Lemma coherent_boot : Run.coherent Run.boot.
Proof. intros pp H. discriminate H. Qed.

Lemma reachable_coherent (w : Run.World) : Run.reachable w -> Run.coherent w.
Proof.
  induction 1 as [|w e Hw IH Ha]; [apply coherent_boot|].
  destruct e as [u|e]; simpl.
  - now apply coherent_user_step.
  - now apply coherent_system_step.
Qed.

(** What a user event does to an ejecting capture in the slot. It never
    clears the flag: the press on the card is refused by [handleStart],
    a press on a stored card calls [bringToFront] with another id, and
    the buttons leave the slot alone. But the release of a listener
    empties the slot when the render it comes from was signed out. *)
Lemma user_step_keeps_flag (u : Run.UserEvent) (w : Run.World) (pp : Photo.t) :
  Run.coherent w ->
  App.pendingPhoto (Run.app w) = Some pp ->
  Photo.isEjecting pp = true ->
  App.pendingPhoto (Run.app (Run.user_step u w)) = Some pp \/
  (App.pendingPhoto (Run.app (Run.user_step u w)) = None /\
   exists l x y random, u = Run.PointerUp l x y random).
Proof.
  intros Hc Hp He. pose proof (Hc pp Hp) as Hfresh.
  destruct u; cbn [Run.user_step]; try (left; exact Hp).
  - left. cbn [Run.app]. now rewrite (proj1 (takePhoto_frame d (Run.app w))).
  - left. cbn [Run.app]. now rewrite (proj1 (handleReload_frame (Run.app w))).
  - left. cbn [Run.app]. now rewrite (proj1 (toggleFlash_frame (Run.app w))).
  - left. now destruct (App.user (Run.app w)).
  - left. cbn [Run.app]. now rewrite (proj1 (changeRoom_frame v (Run.app w))).
  - left. unfold Run.pressPending. rewrite Hp.
    unfold Polaroid.handleStart. cbn. rewrite He.
    now destruct onTextarea.
  - left. unfold Run.pressCard.
    destruct (find _ (App.photos (Run.app w))) as [c|] eqn:F; [|exact Hp].
    apply find_some in F. destruct F as [Fin Fid].
    apply String.eqb_eq in Fid.
    unfold Polaroid.handleStart. cbn [fst].
    destruct onTextarea; [exact Hp|].
    destruct (Photo.isEjecting c); [exact Hp|]. cbn [fst Run.app].
    apply bringToFront_other; [exact Hp|].
    intros E. apply Hfresh. rewrite E. now apply in_map.
  - destruct (release_cases l x y random w)
      as [E|[pp' [c (_ & _ & _ & _ & E)]]].
    + left. now rewrite E.
    + right. rewrite E. split; [reflexivity|]. now exists l, x, y, random.
Qed.

(** C9 on [src/App.tsx] with the card view of [src/unnamed/part_003].
    The capture p1 is pressed twice before it is released, so that the
    listeners of the first press stay on the window; p1 is kept, the
    shutter is clicked and the capture p2 is ejected. While p2 is
    ejecting, before its ejection timer fires, the next release of the
    pointer anywhere reaches those listeners: their
    [handlePendingDragEnd] is the one of the render in which p1 was
    pending, its guard passes, and it ends with [setPendingPhoto(null)].
    The slot is empty, p2 is in no store, and the store holds p1 three
    times. *)
Theorem leftover_listener_drops_ejecting_capture :
  Run.reachable Demo.reshot /\
  App.seenUser Demo.held = None /\
  option_map Photo.id (App.seenPendingPhoto Demo.held) = Some "p1"%string /\
  App.shutterDisabled (Run.app (Run.run Demo.powerUp Run.boot)) = false /\
  App.shutterDisabled (Run.app (Run.run Demo.keptTwice Run.boot)) = false /\
  In (SetTimeout (Eject Demo.jpeg true "May I meet you") 4000)
     (snd (App.takePhoto Demo.dom (Run.app (Run.run Demo.keptTwice Run.boot)))) /\
  (exists pp, App.pendingPhoto (Run.app Demo.reshot) = Some pp /\
              Photo.id pp = "p2"%string /\ Photo.isEjecting pp = true) /\
  Run.admissible Demo.reshot (Run.ByUser (Run.PointerUp Demo.held 400 40 (1 # 2))) /\
  App.pendingPhoto
    (Run.app (Run.step (Run.ByUser (Run.PointerUp Demo.held 400 40 (1 # 2)))
                       Demo.reshot)) = None /\
  map Photo.id
      (App.photos
         (Run.app (Run.step (Run.ByUser (Run.PointerUp Demo.held 400 40 (1 # 2)))
                            Demo.reshot)))
  = ["p1"; "p1"; "p1"]%string.
Proof.
  split; [|split; [|split; [|split; [|split; [|split; [|split; [|split; [|split]]]]]]]].
  - apply reachable_run; [apply Run.reachable_boot|].
    vm_compute. repeat split; try tauto; intuition discriminate.
  - reflexivity.
  - reflexivity.
  - reflexivity.
  - reflexivity.
  - vm_compute. tauto.
  - eexists. repeat split.
  - vm_compute. tauto.
  - reflexivity.
  - reflexivity.
Qed.

(** * Further properties of the code *)

(** ** Film roll *)

Lemma takePhoto_cases (d : Dom) (s : App.AppState) :
  App.takePhoto d s = (s, []) \/
  (App.pendingPhoto s = None /\
   0 < App.shotsLeft s /\
   App.isReloading s = false /\
   isPoweredOn (App.state s) = true /\
   isCapturing (App.state s) = false /\
   canvasRef d = true /\
   (exists video, videoRef d = Some video /\ 2 <= readyState video /\
                  videoWidth video <> 0 /\ videoHeight video <> 0) /\
   App.shotsLeft (fst (App.takePhoto d s)) = App.shotsLeft s - 1 /\
   isCapturing (App.state (fst (App.takePhoto d s))) = true /\
   App.isReloading (fst (App.takePhoto d s)) = false /\
   isPoweredOn (App.state (fst (App.takePhoto d s))) = true /\
   App.pendingPhoto (fst (App.takePhoto d s)) = None /\
   App.photos (fst (App.takePhoto d s)) = App.photos s /\
   App.maxZIndex (fst (App.takePhoto d s)) = App.maxZIndex s /\
   In (Play Shutter) (snd (App.takePhoto d s))).
Proof.
  unfold App.takePhoto.
  destruct (App.pendingPhoto s) eqn:Hp; [now left|].
  destruct (App.shotsLeft s <=? 0) eqn:Hn; [now left|].
  destruct (App.isReloading s) eqn:Hr; [now left|].
  destruct (isPoweredOn (App.state s)) eqn:Hon; [|now left].
  destruct (videoRef d) as [video|] eqn:Hv; [|now left].
  destruct (canvasRef d) eqn:Hc; [|now left].
  destruct (isCapturing (App.state s)) eqn:Hcap; [now left|].
  destruct (readyState video <? 2) eqn:H1; [now left|].
  destruct (videoWidth video =? 0) eqn:H2; [now left|].
  destruct (videoHeight video =? 0) eqn:H3; [now left|].
  right. cbn [orb negb].
  apply Z.leb_gt in Hn. apply Z.ltb_ge in H1.
  apply Z.eqb_neq in H2. apply Z.eqb_neq in H3.
  split; [reflexivity|]. split; [exact Hn|].
  split; [reflexivity|]. split; [reflexivity|]. split; [reflexivity|].
  split; [reflexivity|]. split; [now exists video|].
  destruct (isFlashOn (App.state s)), (cameraBodyRef d), (context2d d),
    (squareContext2d d); simpl; rewrite ?Hr, ?Hon; repeat split; auto.
Qed.

(** X2. A press of the shutter is either refused, and then nothing
    changes and nothing is issued, or accepted: then the slot was empty,
    film was left, the camera was on, idle and not reloading, the video
    frame was ready, and the press costs exactly one shot, marks the
    camera as capturing and plays the shutter sound, leaving the slot,
    the card store and the stack-order counter alone. *)
Theorem shutter_accepts_or_refuses (d : Dom) (s : App.AppState) :
  App.takePhoto d s = (s, []) \/
  (App.pendingPhoto s = None /\
   0 < App.shotsLeft s /\
   App.isReloading s = false /\
   isPoweredOn (App.state s) = true /\
   isCapturing (App.state s) = false /\
   canvasRef d = true /\
   (exists video, videoRef d = Some video /\ 2 <= readyState video /\
                  videoWidth video <> 0 /\ videoHeight video <> 0) /\
   App.shotsLeft (fst (App.takePhoto d s)) = App.shotsLeft s - 1 /\
   isCapturing (App.state (fst (App.takePhoto d s))) = true /\
   App.pendingPhoto (fst (App.takePhoto d s)) = None /\
   App.photos (fst (App.takePhoto d s)) = App.photos s /\
   App.maxZIndex (fst (App.takePhoto d s)) = App.maxZIndex s /\
   In (Play Shutter) (snd (App.takePhoto d s))).
Proof.
  destruct (takePhoto_cases d s) as [H|H]; [now left|right].
  intuition.
Qed.

(** X3. Every ejection that a press of the shutter schedules is the
    ejection of the frame just taken, 4000 ms later, with the AI switch
    and the custom text of that moment; it is scheduled only when both
    canvas contexts were obtained, and the press that schedules it has
    cost one shot. *)
Theorem scheduled_ejection_is_paid_for
    (d : Dom) (s : App.AppState) (url text : string) (ai : bool) (ms : Z) :
  In (SetTimeout (Eject url ai text) ms) (snd (App.takePhoto d s)) ->
  url = frame d /\ ai = App.isAiEnabled s /\ text = App.customText s /\
  ms = 4000 /\
  context2d d = true /\ squareContext2d d = true /\
  App.shotsLeft (fst (App.takePhoto d s)) = App.shotsLeft s - 1.
Proof.
  intros H.
  destruct (takePhoto_cases d s) as [E|C].
  { rewrite E in H. destruct H. }
  destruct C as (_ & _ & _ & _ & _ & _ & _ & Hs & _).
  split; [|split; [|split; [|split; [|split; [|split; [|exact Hs]]]]]];
    clear Hs; takePhoto_split; in_cases H;
    try (injection H as; subst; reflexivity);
    try (apply in_app_or in H; destruct H as [H|H]; in_cases H;
         try (injection H as; subst; reflexivity));
    match goal with
    | E : negb (context2d d) = false |- context2d d = true =>
        now destruct (context2d d)
    end.
Qed.

Lemma scheduled_ejection_is_paid_for_witness :
  In (SetTimeout (Eject Demo.jpeg true "May I meet you") 4000)
     (snd (App.takePhoto Demo.dom Demo.poweredOn)) /\
  context2d Demo.dom = true /\
  App.shotsLeft (fst (App.takePhoto Demo.dom Demo.poweredOn)) = 8 - 1.
Proof.
  assert (H : In (SetTimeout (Eject Demo.jpeg true "May I meet you") 4000)
                 (snd (App.takePhoto Demo.dom Demo.poweredOn))).
  { simpl. right. now left. }
  split; [exact H|].
  destruct (scheduled_ejection_is_paid_for Demo.dom Demo.poweredOn Demo.jpeg
              "May I meet you" true 4000 H) as (_ & _ & _ & _ & Hc & _ & Hs).
  split; [exact Hc|exact Hs].
Defined.

(** X4. When a press of the shutter is accepted but a canvas context is
    missing, the shot is spent, no ejection and no reset of the capturing
    flag is scheduled (the only timer left is the one that ends the page
    flash), and in the state it leaves a press of the shutter is refused,
    whatever the document then shows. *)
Theorem capture_without_canvas_context_jams (d d' : Dom) (s : App.AppState) :
  snd (App.takePhoto d s) <> [] ->
  context2d d && squareContext2d d = false ->
  App.shotsLeft (fst (App.takePhoto d s)) = App.shotsLeft s - 1 /\
  (forall t ms, In (SetTimeout t ms) (snd (App.takePhoto d s)) ->
                t = PageFlashOff) /\
  App.takePhoto d' (fst (App.takePhoto d s)) = (fst (App.takePhoto d s), []).
Proof.
  intros Hne Hctx.
  destruct (takePhoto_cases d s) as [E|C].
  { rewrite E in Hne. now contradiction Hne. }
  destruct C as (_ & _ & _ & _ & _ & _ & _ & Hs & Hcap & _).
  split; [exact Hs|]. split.
  - intros t ms H. clear Hs Hcap Hne.
    takePhoto_split; in_cases H;
      try (injection H as; subst; reflexivity);
      try (apply in_app_or in H; destruct H as [H|H]; in_cases H);
      try (injection H as; subst; reflexivity);
      exfalso;
      repeat match goal with
             | E : negb ?b = false |- _ => destruct b; try discriminate E; clear E
             | E : ?b = true |- _ => rewrite E in *; clear E
             end; discriminate Hctx.
  - destruct (takePhoto_cases d' (fst (App.takePhoto d s))) as [E|C];
      [exact E|].
    destruct C as (_ & _ & _ & _ & Hidle & _).
    rewrite Hcap in Hidle. discriminate Hidle.
Qed.

Lemma capture_without_canvas_context_jams_witness :
  snd (App.takePhoto
         (mkDom (Some (mkVideo 4 1280 720)) true false true None true 1000 800
                Demo.jpeg) Demo.poweredOn) <> [] /\
  false && true = false /\
  App.shotsLeft
    (fst (App.takePhoto
            (mkDom (Some (mkVideo 4 1280 720)) true false true None true 1000
                   800 Demo.jpeg) Demo.poweredOn)) = 8 - 1.
Proof.
  assert (H : snd (App.takePhoto
                     (mkDom (Some (mkVideo 4 1280 720)) true false true None
                            true 1000 800 Demo.jpeg) Demo.poweredOn) <> [])
    by (simpl; discriminate).
  split; [exact H|]. split; [reflexivity|].
  exact (proj1 (capture_without_canvas_context_jams
                  (mkDom (Some (mkVideo 4 1280 720)) true false true None
                         true 1000 800 Demo.jpeg)
                  Demo.dom Demo.poweredOn H eq_refl)).
Defined.

Lemma bringToFront_shotsLeft (i : string) (s : App.AppState) :
  App.shotsLeft (App.bringToFront i s) = App.shotsLeft s.
Proof.
  unfold App.bringToFront.
  destruct (App.pendingPhoto s) as [pp|]; [|reflexivity].
  now destruct (Photo.id pp =? i)%string.
Qed.

Lemma release_shotsLeft (l : App.Render) (x y random : Q) (w : Run.World) :
  App.shotsLeft (Run.app (Run.release l x y random w))
  = App.shotsLeft (Run.app w).
Proof.
  destruct (release_cases l x y random w)
    as [E|[pp [c (_ & _ & _ & _ & E)]]]; now rewrite E.
Qed.

Lemma roomEffect_shotsLeft (s : App.AppState) :
  App.shotsLeft (fst (App.roomEffect s)) = App.shotsLeft s.
Proof. unfold App.roomEffect. now destruct (App.user s). Qed.

Lemma changeRoom_shotsLeft (v : string) (s : App.AppState) :
  App.shotsLeft (fst (App.changeRoom v s)) = App.shotsLeft s.
Proof.
  unfold App.changeRoom. destruct (v =? App.room s)%string; [reflexivity|].
  apply (roomEffect_shotsLeft (App.setRoom v s)).
Qed.

Lemma authChanged_shotsLeft (u : option User) (s : App.AppState) :
  App.shotsLeft (fst (App.authChanged u s)) = App.shotsLeft s.
Proof.
  unfold App.authChanged.
  destruct (App.user s), u; try reflexivity;
    apply (roomEffect_shotsLeft (App.setUser _ s)).
Qed.

Lemma fetched_shotsLeft (data : option (list Row)) (s : App.AppState) :
  App.shotsLeft (App.fetched data s) = App.shotsLeft s.
Proof.
  unfold App.fetched. destruct data; [|reflexivity].
  now destruct (Math_max _).
Qed.

(** What one event does to the film count: nothing, one shot less when
    some were left, or a full roll. *)
Lemma step_shotsLeft (e : Run.Event) (w : Run.World) :
  App.shotsLeft (Run.app (Run.step e w)) = App.shotsLeft (Run.app w) \/
  (0 < App.shotsLeft (Run.app w) /\
   App.shotsLeft (Run.app (Run.step e w)) = App.shotsLeft (Run.app w) - 1) \/
  App.shotsLeft (Run.app (Run.step e w)) = 8.
Proof.
  destruct e as [u|e].
  - destruct u; cbn [Run.step Run.user_step Run.app]; try (now left).
    + destruct (takePhoto_cases d (Run.app w)) as [E|C].
      * left. now rewrite E.
      * right. left. destruct C as (_ & Hn & _ & _ & _ & _ & _ & Hs & _).
        now split.
    + left. unfold App.handleReload. now destruct (App.isReloading _).
    + left. unfold App.toggleFlash. now destruct (isPoweredOn _).
    + left. now destruct (App.user _).
    + left. apply changeRoom_shotsLeft.
    + left. unfold Run.pressPending.
      destruct (App.pendingPhoto _) as [pp|]; [|reflexivity].
      unfold Polaroid.handleStart. cbn.
      destruct onTextarea; [reflexivity|].
      destruct (Photo.isEjecting pp); [reflexivity|].
      apply bringToFront_shotsLeft.
    + left. unfold Run.pressCard.
      destruct (find _ _) as [c|]; [|reflexivity].
      unfold Polaroid.handleStart. cbn.
      destruct onTextarea; [reflexivity|].
      destruct (Photo.isEjecting c); [reflexivity|].
      apply bringToFront_shotsLeft.
    + left. apply release_shotsLeft.
  - destruct e as [t d uuid now|i cap|data|failed|p|u|answer];
      cbn [Run.step Run.system_step Run.app]; try (now left).
    + destruct t; try (now left). right. now right.
    + left. apply fetched_shotsLeft.
    + left. apply authChanged_shotsLeft.
    + left. now destruct answer.
Qed.

(** X1. In every reachable world the film count lies between 0 and the
    capacity of the roll, 8: no sequence of presses, timers and answers
    drives it below zero or above a full roll. *)
Theorem film_count_within_capacity (w : Run.World) :
  Run.reachable w -> 0 <= App.shotsLeft (Run.app w) <= 8.
Proof.
  induction 1 as [|w e Hw IH Ha]; [simpl; lia|].
  destruct (step_shotsLeft e w) as [E|[[Hn E]|E]]; rewrite E; lia.
Qed.

Lemma film_count_within_capacity_witness :
  Run.reachable Demo.ejecting /\
  0 <= App.shotsLeft (Run.app Demo.ejecting) <= 8.
Proof.
  assert (Hr : Run.reachable Demo.ejecting).
  { apply reachable_run; [apply Run.reachable_boot|]. simpl. tauto. }
  split; [exact Hr|]. exact (film_count_within_capacity Demo.ejecting Hr).
Defined.

(** X5. Reloading: from a state that is not reloading, pressing reload
    starts a reload of 2000 ms during which both a press of the shutter
    and a second press of reload do nothing; when the reload timer
    fires, the film count is exactly 8 and the camera is no longer
    reloading, nothing else having changed. *)
Theorem reload_cycle (d : Dom) (s : App.AppState) :
  App.isReloading s = false ->
  snd (App.handleReload s) = [Play Reload; SetTimeout ReloadDone 2000] /\
  App.takePhoto d (fst (App.handleReload s)) = (fst (App.handleReload s), []) /\
  App.handleReload (fst (App.handleReload s)) = (fst (App.handleReload s), []) /\
  App.reloadDone (fst (App.handleReload s)) = App.setShotsLeft 8 s /\
  App.shotsLeft (App.reloadDone (fst (App.handleReload s))) = 8 /\
  App.isReloading (App.reloadDone (fst (App.handleReload s))) = false.
Proof.
  intros Hr. unfold App.handleReload. rewrite Hr. cbn [fst snd].
  split; [reflexivity|]. split.
  - destruct (takePhoto_cases d (App.setIsReloading true s)) as [E|C];
      [exact E|].
    destruct C as (_ & _ & Hno & _). discriminate Hno.
  - split; [reflexivity|]. split; [|split; reflexivity].
    destruct s. unfold App.reloadDone, App.setShotsLeft, App.setIsReloading.
    simpl in *. now rewrite Hr.
Qed.

Lemma reload_cycle_witness :
  App.isReloading (App.setShotsLeft 0 Demo.poweredOn) = false /\
  App.shotsLeft
    (App.reloadDone (fst (App.handleReload (App.setShotsLeft 0 Demo.poweredOn))))
  = 8.
Proof.
  split; [reflexivity|].
  exact (proj1 (proj2 (proj2 (proj2 (proj2
           (reload_cycle Demo.dom (App.setShotsLeft 0 Demo.poweredOn)
                         eq_refl)))))).
Defined.

(** ** Late callbacks *)

Lemma setPendingPhoto_same (s : App.AppState) :
  App.setPendingPhoto (App.pendingPhoto s) s = s.
Proof. now destruct s. Qed.

Lemma settle_absent (i : string) (l : list Photo.t) :
  ~ In i (map Photo.id l) -> App.settle i l = l.
Proof.
  induction l as [|h t IH]; simpl; [reflexivity|].
  intros H. destruct (String.eqb_spec (Photo.id h) i) as [E|E].
  - exfalso. apply H. now left.
  - f_equal. apply IH. intros H'. apply H. now right.
Qed.

(** X6. A caption that resolves is given only to the capture it was asked
    for: when the slot holds another capture the whole state is
    unchanged, and so it is when the slot is empty. *)
Theorem caption_misses_other_captures
    (photoId cap : string) (s : App.AppState) :
  (forall pp, App.pendingPhoto s = Some pp -> Photo.id pp <> photoId) ->
  App.captionArrived photoId cap s = s.
Proof.
  intros H. unfold App.captionArrived.
  destruct (App.pendingPhoto s) as [pp|] eqn:Hp.
  - destruct (String.eqb_spec (Photo.id pp) photoId) as [E|_].
    + now destruct (H pp eq_refl).
    + rewrite <- Hp. apply setPendingPhoto_same.
  - rewrite <- Hp. apply setPendingPhoto_same.
Qed.

Lemma caption_misses_other_captures_witness :
  (forall pp, App.pendingPhoto Demo.occupied = Some pp ->
              Photo.id pp <> "p0"%string) /\
  App.captionArrived "p0" "Summer of 89" Demo.occupied = Demo.occupied.
Proof.
  assert (H : forall pp, App.pendingPhoto Demo.occupied = Some pp ->
                         Photo.id pp <> "p0"%string).
  { intros pp E. injection E as <-. discriminate. }
  split; [exact H|].
  exact (caption_misses_other_captures "p0" "Summer of 89" Demo.occupied H).
Defined.

Lemma settle_twice (i : string) (l : list Photo.t) :
  App.settle i (App.settle i l) = App.settle i l.
Proof.
  induction l as [|h t IH]; simpl; [reflexivity|]. rewrite IH. f_equal.
  destruct (Photo.id h =? i)%string eqn:Eh; simpl; rewrite Eh; reflexivity.
Qed.

(** X7. Timers that fire after their capture is gone do nothing: the end
    of ejection on an empty slot, and the end of developing for an id
    that is not in the store, leave the state as it is; and each of the
    two timers, fired twice, does what it does fired once. *)
Theorem late_timers_are_harmless (photoId : string) (s : App.AppState) :
  App.pendingPhoto s = None ->
  ~ In photoId (map Photo.id (App.photos s)) ->
  App.ejectionEnd s = s /\
  App.developDone photoId s = s /\
  (forall s0, App.ejectionEnd (App.ejectionEnd s0) = App.ejectionEnd s0) /\
  (forall s0, App.developDone photoId (App.developDone photoId s0)
              = App.developDone photoId s0).
Proof.
  intros Hp Hi. split; [|split; [|split]].
  - unfold App.ejectionEnd. rewrite Hp. rewrite <- Hp.
    apply setPendingPhoto_same.
  - unfold App.developDone. rewrite settle_absent by exact Hi.
    apply setPhotos_same.
  - intros s0. unfold App.ejectionEnd.
    destruct s0 as [? ? ? ? ? ? [pp|] ? ? ? ? ? ? ?]; reflexivity.
  - intros s0. unfold App.developDone. destruct s0.
    cbn [App.photos App.setPhotos
         App.user App.isAuthOpen App.state App.shotsLeft App.isReloading
         App.pendingPhoto App.isAiEnabled App.maxZIndex App.customText
         App.isSettingsOpen App.showPageFlash App.flashBurstPos App.room].
    now rewrite settle_twice.
Qed.

Lemma late_timers_are_harmless_witness :
  App.pendingPhoto Demo.poweredOn = None /\
  ~ In "p1"%string (map Photo.id (App.photos Demo.poweredOn)) /\
  App.ejectionEnd Demo.poweredOn = Demo.poweredOn /\
  App.developDone "p1" Demo.poweredOn = Demo.poweredOn.
Proof.
  assert (Hi : ~ In "p1"%string (map Photo.id (App.photos Demo.poweredOn)))
    by (simpl; tauto).
  split; [reflexivity|]. split; [exact Hi|].
  destruct (late_timers_are_harmless "p1" Demo.poweredOn eq_refl Hi)
    as (H1 & H2 & _).
  split; [exact H1|exact H2].
Defined.

(** ** The card store under the change feed *)

(** X8. A row of the change feed whose id is new enters the store at the
    end, as a developing card, and sets the 5200 ms develop timer; when
    that timer fires the store holds, after the cards it had, exactly
    the settled card that a fetch of that row seeds. *)
Theorem feed_card_develops_then_settles (p : Row) (s : App.AppState) :
  ~ In (r_id p) (map Photo.id (App.photos s)) ->
  App.photos (fst (App.rowInserted p s))
  = App.photos s ++ [App.photoOfRow true p] /\
  snd (App.rowInserted p s) = [SetTimeout (DevelopDone (r_id p)) 5200] /\
  App.photos (App.developDone (r_id p) (fst (App.rowInserted p s)))
  = App.photos s ++ App.photos (App.fetched (Some [p]) s).
Proof.
  intros H. unfold App.rowInserted. cbn [fst snd].
  assert (E : App.insertIfAbsent (App.photoOfRow true p) (App.photos s)
              = App.photos s ++ [App.photoOfRow true p]).
  { unfold App.insertIfAbsent.
    now rewrite (find_id_not_In (Photo.id (App.photoOfRow true p)) _ H). }
  split; [exact E|]. split; [reflexivity|].
  unfold App.developDone. cbn [App.photos App.setPhotos]. rewrite E.
  unfold App.settle. rewrite map_app. fold (App.settle (r_id p) (App.photos s)).
  rewrite settle_absent by exact H. f_equal.
  simpl. now rewrite String.eqb_refl.
Qed.

Lemma feed_card_develops_then_settles_witness :
  ~ In (r_id (Demo.row "c2" "global" 5 31))
       (map Photo.id (App.photos (App.setPhotos [Demo.card "c1" 40]
                                                Demo.signedIn))) /\
  App.photos
    (fst (App.rowInserted (Demo.row "c2" "global" 5 31)
            (App.setPhotos [Demo.card "c1" 40] Demo.signedIn)))
  = [Demo.card "c1" 40; App.photoOfRow true (Demo.row "c2" "global" 5 31)].
Proof.
  assert (H : ~ In (r_id (Demo.row "c2" "global" 5 31))
                   (map Photo.id (App.photos (App.setPhotos [Demo.card "c1" 40]
                                                            Demo.signedIn)))).
  { simpl. intros [E|[]]. discriminate E. }
  split; [exact H|].
  exact (proj1 (feed_card_develops_then_settles
                  (Demo.row "c2" "global" 5 31)
                  (App.setPhotos [Demo.card "c1" 40] Demo.signedIn) H)).
Defined.

Lemma insertIfAbsent_NoDup (n : Photo.t) (l : list Photo.t) :
  List.NoDup (map Photo.id l) -> List.NoDup (map Photo.id (App.insertIfAbsent n l)).
Proof.
  intros H. unfold App.insertIfAbsent.
  destruct (find _ l) eqn:F; [exact H|].
  assert (Hn : ~ In (Photo.id n) (map Photo.id l)).
  { intros Hin. destruct (find_id_In _ _ Hin) as [q Hq]. congruence. }
  rewrite map_app. simpl.
  apply List.NoDup_app; [exact H|repeat constructor; auto|].
  intros a Ha [E|[]]. subst a. now apply Hn.
Qed.

(** X9. One event keeps the ids of the card store distinct, as long as a
    release reaches listeners whose capture is still the one in the
    slot: in a coherent world whose stored cards have distinct ids,
    after any such event (an answer to a fetch being taken with distinct
    row ids) the stored cards still have distinct ids. The release of
    listeners left on the window after their capture was kept is not
    covered: it appends that capture once more. *)
Theorem store_ids_stay_distinct (e : Run.Event) (w : Run.World) :
  Run.coherent w ->
  List.NoDup (map Photo.id (App.photos (Run.app w))) ->
  (forall rows, e = Run.BySystem (Run.FetchResolved (Some rows)) ->
                List.NoDup (map r_id rows)) ->
  (forall l x y random pp,
     e = Run.ByUser (Run.PointerUp l x y random) ->
     App.seenPendingPhoto l = Some pp ->
     exists pp', App.pendingPhoto (Run.app w) = Some pp' /\
                 Photo.id pp' = Photo.id pp) ->
  List.NoDup (map Photo.id (App.photos (Run.app (Run.step e w)))).
Proof.
  intros Hc Hn Hrows Hheld.
  destruct e as [u|e].
  - destruct u; cbn [Run.step Run.user_step Run.app]; try exact Hn.
    + now rewrite (proj2 (takePhoto_frame d (Run.app w))).
    + now rewrite (proj2 (handleReload_frame (Run.app w))).
    + constructor.
    + now rewrite (proj2 (toggleFlash_frame (Run.app w))).
    + now destruct (App.user _).
    + destruct (proj2 (changeRoom_frame v (Run.app w))) as [-> | ->];
        [exact Hn|constructor].
    + unfold Run.pressPending.
      destruct (App.pendingPhoto _) as [pp|]; [|exact Hn].
      unfold Polaroid.handleStart. cbn.
      destruct onTextarea; [exact Hn|].
      destruct (Photo.isEjecting pp); [exact Hn|].
      cbn. now rewrite bringToFront_ids.
    + unfold Run.pressCard.
      destruct (find _ _) as [c|]; [|exact Hn].
      unfold Polaroid.handleStart. cbn.
      destruct onTextarea; [exact Hn|].
      destruct (Photo.isEjecting c); [exact Hn|].
      cbn. now rewrite bringToFront_ids.
    + destruct (release_cases l x y random w)
        as [E|[pp [c (Hp & _ & Hid & _ & E)]]]; rewrite E; [exact Hn|].
      cbn. rewrite map_app. simpl.
      destruct (Hheld l x y random pp eq_refl Hp) as [pp' [Hp' Hid']].
      pose proof (Hc pp' Hp') as Hfresh.
      apply List.NoDup_app; [exact Hn|repeat constructor; auto|].
      intros a Ha [E'|[]]. subst a. apply Hfresh. now rewrite Hid', <- Hid.
  - destruct e as [t d uuid now|i cap|data|failed|p|u|answer];
      cbn [Run.step Run.system_step Run.app]; try exact Hn.
    + destruct t; try exact Hn. cbn. now rewrite settle_ids.
    + destruct data as [rows|]; [|exact Hn].
      rewrite (proj1 (fetched_seeds_settled rows (Run.app w))).
      now apply Hrows.
    + cbn. now apply insertIfAbsent_NoDup.
    + destruct (proj2 (authChanged_frame u (Run.app w))) as [-> | ->];
        [exact Hn|constructor].
    + now destruct answer.
Qed.

Lemma store_ids_stay_distinct_witness :
  Run.coherent (fst (Run.pressPending false Demo.deskWorld)) /\
  map Photo.id
      (App.photos
         (Run.app (Run.step
                     (Run.ByUser (Run.PointerUp (App.render Demo.desk)
                                                120 340 (1 # 2)))
                     (fst (Run.pressPending false Demo.deskWorld)))))
  = ["c1"; "p1"]%string /\
  List.NoDup
    (map Photo.id
       (App.photos
          (Run.app (Run.step
                      (Run.ByUser (Run.PointerUp (App.render Demo.desk)
                                                 120 340 (1 # 2)))
                      (fst (Run.pressPending false Demo.deskWorld)))))).
Proof.
  assert (Hc : Run.coherent (fst (Run.pressPending false Demo.deskWorld))).
  { intros pp H. cbn in H. injection H as <-. cbn. intuition discriminate. }
  assert (Hn : List.NoDup
                 (map Photo.id
                    (App.photos
                       (Run.app (fst (Run.pressPending false Demo.deskWorld)))))).
  { cbn. repeat constructor; simpl; intuition discriminate. }
  split; [exact Hc|]. split; [reflexivity|].
  apply (store_ids_stay_distinct
           (Run.ByUser (Run.PointerUp (App.render Demo.desk) 120 340 (1 # 2)))
           (fst (Run.pressPending false Demo.deskWorld)) Hc Hn).
  - intros rows E. discriminate E.
  - intros l x y random pp E Hp. injection E as <- _ _ _.
    cbn in Hp. injection Hp as <-. eexists. split; reflexivity.
Defined.

(** ** Fetch on join: what it does seed *)

(** X10. The answer to a fetch replaces the card store: the store then
    holds exactly the rows of the answer, in its order, each as a settled
    card (not developing, not ejecting, not a negative) placed where the
    row says, whatever the store held before. With rows, the stack-order
    counter becomes one above the highest stack order among them; with
    none, it keeps its value. An answer without data changes nothing. *)
Theorem fetch_replaces_store (rows : list Row) (s : App.AppState) :
  App.photos (App.fetched (Some rows) s) = map (App.photoOfRow false) rows /\
  Forall (fun c => Photo.isDeveloping c = false /\ Photo.isEjecting c = false
                   /\ Photo.isStaticNegative c = false)
         (App.photos (App.fetched (Some rows) s)) /\
  match rows with
  | [] => App.maxZIndex (App.fetched (Some rows) s) = App.maxZIndex s
  | _ :: _ =>
      exists m, In m (map r_z_index rows) /\
                Forall (fun r => r_z_index r <= m) rows /\
                App.maxZIndex (App.fetched (Some rows) s) = m + 1
  end /\
  App.pendingPhoto (App.fetched (Some rows) s) = App.pendingPhoto s /\
  App.fetched None s = s.
Proof.
  destruct (fetched_seeds_settled rows s) as (_ & _ & Hmax & Hnil & Hnone).
  assert (Hph : App.photos (App.fetched (Some rows) s)
                = map (App.photoOfRow false) rows).
  { unfold App.fetched. now destruct (Math_max _). }
  split; [exact Hph|]. split.
  - rewrite Hph. apply List.Forall_forall. intros c Hc.
    apply in_map_iff in Hc. destruct Hc as [r [<- _]]. now repeat split.
  - split; [|split; [|exact Hnone]].
    + destruct rows as [|r rows]; [now apply Hnil|].
      apply Hmax. discriminate.
    + unfold App.fetched. now destruct (Math_max _).
Qed.

(** ** Room switch in the shared-room revision *)

Lemma ignored_stays_ignored (e : Session.Event) (s : Synced.State) (g : nat) :
  (exists r, Synced.runs s !! g = Some r /\ Synced.ignore r = true) ->
  exists r, Synced.runs (Session.step e s) !! g = Some r /\
            Synced.ignore r = true.
Proof.
  intros [r [Hr Hi]].
  assert (Hlt : (g < length (Synced.runs s))%nat)
    by (eapply lookup_lt_Some; exact Hr).
  assert (Heffect : forall s0,
            (exists r0, Synced.runs s0 !! g = Some r0 /\ Synced.ignore r0 = true) ->
            exists r0, Synced.runs (fst (Synced.roomEffect s0)) !! g = Some r0 /\
                       Synced.ignore r0 = true).
  { intros s0 [r0 [H0 I0]]. unfold Synced.roomEffect.
    destruct (App.user (Synced.base s0)); cbn; [|now exists r0].
    exists r0. split; [|exact I0].
    rewrite lookup_app_l; [exact H0|]. eapply lookup_lt_Some; exact H0. }
  assert (Hrerun : forall s0,
            (exists r0, Synced.runs s0 !! g = Some r0 /\ Synced.ignore r0 = true) ->
            exists r0, Synced.runs (fst (Synced.rerun s0)) !! g = Some r0 /\
                       Synced.ignore r0 = true).
  { intros s0 [r0 [H0 I0]]. unfold Synced.rerun. cbn [fst].
    apply Heffect.
    destruct (Synced.current s0) as [g'|]; [|now exists r0].
    unfold Synced.cleanup.
    destruct (Synced.runs s0 !! g') as [r'|] eqn:H'; cbn; [|now exists r0].
    destruct (Nat.eq_dec g' g) as [->|Hne].
    - exists (Synced.with_ignore true r'). split; [|reflexivity].
      apply list_lookup_insert_eq. eapply lookup_lt_Some; exact H0.
    - exists r0. split; [|exact I0].
      now rewrite list_lookup_insert_ne. }
  destruct e; cbn [Session.step].
  - unfold Synced.changeRoom.
    destruct (v =? App.room (Synced.base s))%string; [now exists r|].
    apply Hrerun. now exists r.
  - unfold Synced.authChanged.
    destruct (App.user (Synced.base s)), u; try (now exists r);
      apply Hrerun; now exists r.
  - unfold Synced.fetched.
    destruct (Synced.runs s !! g0) as [r0|]; [|now exists r].
    destruct data; [|now exists r].
    destruct (Synced.ignore r0); [now exists r|].
    destruct (Math_max _); now exists r.
  - unfold Synced.rowInserted.
    destruct (Synced.runs s !! g0) as [r0|]; [|now exists r].
    destruct (Synced.ignore r0); now exists r.
  - unfold Presence.receive, Synced.cursorReceived.
    destruct (Synced.runs s !! g0) as [r0|]; [|now exists r].
    destruct (_ =? _)%string; now exists r.
  - now exists r.
  - now exists r.
  - unfold Synced.handlePendingDragEnd.
    destruct (App.pendingPhoto _) as [pp|]; [|now exists r].
    destruct (negb _); [now exists r|].
    destruct (App.user _); now exists r.
  - now exists r.
Qed.

(** X11. In the shared-room revision a room switch silences the run of
    the effect that served the previous room for good: whatever happens
    afterwards (further switches, sign-in and sign-out, answers and rows
    of other runs, cursors, drags), an answer to its fetch and a row of
    its change feed, delivered at any later moment, leave the whole
    state untouched. *)
Theorem stale_run_silenced_for_good
    (v : string) (later : list Session.Event) (s : Synced.State) (g : nat)
    (r : Synced.EffectRun) :
  Synced.current s = Some g ->
  Synced.runs s !! g = Some r ->
  v <> App.room (Synced.base s) ->
  (forall data d,
     Synced.fetched g data d (Session.run later (fst (Synced.changeRoom v s)))
     = Session.run later (fst (Synced.changeRoom v s))) /\
  (forall p d,
     Synced.rowInserted g p d (Session.run later (fst (Synced.changeRoom v s)))
     = (Session.run later (fst (Synced.changeRoom v s)), [])).
Proof.
  intros Hc Hr Hv.
  destruct (changeRoom_marks_previous_run v s g r Hc Hr Hv) as [Hg _].
  assert (H : exists r0,
             Synced.runs (Session.run later (fst (Synced.changeRoom v s))) !! g
             = Some r0 /\ Synced.ignore r0 = true).
  { assert (H0 : exists r0, Synced.runs (fst (Synced.changeRoom v s)) !! g
                            = Some r0 /\ Synced.ignore r0 = true)
      by (exists (Synced.with_ignore true r); now split).
    revert H0. generalize (fst (Synced.changeRoom v s)).
    induction later as [|e later IH]; intros s0 H0; [exact H0|].
    simpl. apply IH. now apply ignored_stays_ignored. }
  destruct H as [r0 [H0 I0]]. split.
  - intros data d. unfold Synced.fetched. rewrite H0, I0. now destruct data.
  - intros p d. unfold Synced.rowInserted. now rewrite H0, I0.
Qed.

Lemma stale_run_silenced_for_good_witness :
  Synced.current Demo.shared = Some 0%nat /\
  Synced.runs Demo.shared !! 0%nat = Some (Synced.mkEffectRun false "global" Demo.alice) /\
  "b"%string <> App.room (Synced.base Demo.shared) /\
  Synced.fetched 0 (Some [Demo.lateAnswer]) Demo.dom
    (Session.run [Session.TypeRoom "c"; Session.SweepTick 5]
                 (fst (Synced.changeRoom "b" Demo.shared)))
  = Session.run [Session.TypeRoom "c"; Session.SweepTick 5]
                (fst (Synced.changeRoom "b" Demo.shared)).
Proof.
  assert (Hv : "b"%string <> App.room (Synced.base Demo.shared))
    by discriminate.
  split; [reflexivity|]. split; [reflexivity|]. split; [exact Hv|].
  exact (proj1 (stale_run_silenced_for_good "b"
                  [Session.TypeRoom "c"; Session.SweepTick 5] Demo.shared 0
                  (Synced.mkEffectRun false "global" Demo.alice)
                  eq_refl eq_refl Hv)
               (Some [Demo.lateAnswer]) Demo.dom).
Defined.

(** ** Caption and keep in the local-only revision *)

(** X12. In the local-only revision the order in which a caption
    resolves and the capture is kept does not matter: both orders end in
    the same state, so a capture kept before its caption resolves ends
    with the same captioned card as one kept after. *)
Theorem offline_caption_and_keep_commute
    (photoId cap i : string) (x y random : Q) (s : App.AppState) :
  Offline.captionArrived photoId cap
    (Offline.handlePendingDragEnd i x y random s)
  = Offline.handlePendingDragEnd i x y random
      (Offline.captionArrived photoId cap s).
Proof.
  unfold Offline.captionArrived, Offline.handlePendingDragEnd,
    App.captionArrived.
  destruct s as [u ao st ph sl rl [pp|] ai mz ct so sf fb rm]; cbn;
    [|reflexivity].
  destruct pp as [pid url ts c dv sn ej txt px py rot z bn mt].
  cbn.
  destruct (pid =? i)%string eqn:Ei;
    destruct (pid =? photoId)%string eqn:Ep; cbn;
    rewrite ?Ei, ?Ep; cbn; rewrite ?Ei, ?Ep; cbn;
    unfold Offline.recaption; rewrite ?map_app; cbn; rewrite ?Ep;
    reflexivity.
Qed.

(** ** Coordinates through the table (shared-room revision) *)

Lemma isNormalized_inUnit (p : Row) :
  Synced.isNormalized p = true <-> inUnit (r_x p) /\ inUnit (r_y p).
Proof.
  unfold Synced.isNormalized, inUnit.
  rewrite !andb_true_iff, !Qle_bool_iff. tauto.
Qed.

(** X13. Round trip of a kept card through the table. A signed-in user
    drops the pending card at a point inside the viewport; the request
    then carries fractions in the 0-1 range, and the row the table makes
    of it, read back by any client (from a fetch or from the change
    feed), gives a card whose coordinates are those fractions (the drop
    point divided by the sender's viewport size) multiplied by the
    reader's viewport size. The id is the table's; the image, the
    caption, the rotation and the stack order [maxZIndex + 1] come back
    as sent. *)
Theorem kept_card_comes_back_scaled
    (i : string) (x y random : Q) (d d' : Dom) (s : Synced.State)
    (u : User) (pp : Photo.t) (newId owner : string) (createdAt : Z)
    (developing : bool) :
  App.user (Synced.base s) = Some u ->
  App.pendingPhoto (Synced.base s) = Some pp ->
  Photo.id pp = i ->
  (0 < innerWidth d)%Q -> (0 < innerHeight d)%Q ->
  (0 <= x)%Q -> (x <= innerWidth d)%Q ->
  (0 <= y)%Q -> (y <= innerHeight d)%Q ->
  exists payload,
    snd (Synced.handlePendingDragEnd i x y random d s) = [RemoteInsert payload] /\
    normalised payload /\
    let back dd :=
      Synced.photoOfRow developing dd
        (Session.stored newId createdAt owner payload) in
    Photo.x (back d') = (x / innerWidth d * innerWidth d')%Q /\
    Photo.y (back d') = (y / innerHeight d * innerHeight d')%Q /\
    Photo.id (back d') = newId /\
    Photo.dataUrl (back d') = Photo.dataUrl pp /\
    Photo.caption (back d') = Photo.caption pp /\
    Photo.rotation (back d') = App.tilt random /\
    Photo.zIndex (back d') = App.maxZIndex (Synced.base s) + 1.
Proof.
  intros Hu Hp Hi Hw Hh Hx0 Hx1 Hy0 Hy1.
  eexists. split.
  - unfold Synced.handlePendingDragEnd.
    rewrite Hp, Hu, Hi, String.eqb_refl. reflexivity.
  - assert (Hn : forall z,
               Synced.isNormalized
                 (Session.stored newId createdAt owner
                    (mkInsertPayload (App.room (Synced.base s)) (Photo.dataUrl pp)
                       (Photo.caption pp) (x / innerWidth d) (y / innerHeight d)
                       (App.tilt random) z)) = true).
    { intros z. apply isNormalized_inUnit. cbn.
      split; apply fraction_in_unit; auto. }
    split.
    { split; apply fraction_in_unit; auto. }
    cbv zeta. unfold Synced.photoOfRow. rewrite !Hn. cbn.
    repeat split; reflexivity.
Qed.

Lemma kept_card_comes_back_scaled_witness :
  exists payload,
    snd (Synced.handlePendingDragEnd "p1" 120 340 (1 # 2) Demo.dom Demo.shared)
    = [RemoteInsert payload] /\
    Photo.x (Synced.photoOfRow true Demo.dom
               (Session.stored "n1" 7 "alice" payload))
    = (120 / 1000 * 1000)%Q.
Proof.
  destruct (kept_card_comes_back_scaled "p1" 120 340 (1 # 2) Demo.dom
              Demo.dom Demo.shared Demo.alice Demo.ready "n1" "alice" 7 true
              eq_refl eq_refl eq_refl eq_refl eq_refl)
    as [payload [Hs H]]; try (now vm_compute).
  exists payload. split; [exact Hs|]. exact (proj1 (proj2 H)).
Defined.

(** X14. Nothing clamps the drop point, and the reader of a row decides
    for both axes at once: a card kept with its corner outside the
    viewport on either axis is stored with a fraction outside the 0-1
    range, and every client then takes both stored fractions for pixels:
    the card reappears at the point (x / width, y / height), not where
    it was dropped. *)
Theorem card_kept_outside_viewport_is_misplaced
    (i : string) (x y random : Q) (d d' : Dom) (s : Synced.State)
    (u : User) (pp : Photo.t) (newId owner : string) (createdAt : Z)
    (developing : bool) :
  App.user (Synced.base s) = Some u ->
  App.pendingPhoto (Synced.base s) = Some pp ->
  Photo.id pp = i ->
  (0 < innerWidth d)%Q -> (0 < innerHeight d)%Q ->
  ~ ((0 <= x)%Q /\ (x <= innerWidth d)%Q /\
     (0 <= y)%Q /\ (y <= innerHeight d)%Q) ->
  exists payload,
    snd (Synced.handlePendingDragEnd i x y random d s) = [RemoteInsert payload] /\
    ~ normalised payload /\
    Photo.x (Synced.photoOfRow developing d'
               (Session.stored newId createdAt owner payload))
    = (x / innerWidth d)%Q /\
    Photo.y (Synced.photoOfRow developing d'
               (Session.stored newId createdAt owner payload))
    = (y / innerHeight d)%Q.
Proof.
  intros Hu Hp Hi Hw Hh Hout.
  eexists. split.
  - unfold Synced.handlePendingDragEnd.
    rewrite Hp, Hu, Hi, String.eqb_refl. reflexivity.
  - assert (Hnot : ~ (inUnit (x / innerWidth d) /\ inUnit (y / innerHeight d))).
    { intros [Hx Hy]. apply Hout.
      apply (proj1 (fraction_in_unit x _ Hw)) in Hx.
      apply (proj1 (fraction_in_unit y _ Hh)) in Hy. tauto. }
    split; [exact Hnot|].
    unfold Synced.photoOfRow.
    destruct (Synced.isNormalized _) eqn:E.
    + apply isNormalized_inUnit in E. cbn in E. contradiction.
    + cbn. split; reflexivity.
Qed.

Lemma card_kept_outside_viewport_is_misplaced_witness :
  exists payload,
    snd (Synced.handlePendingDragEnd "p1" 500 (-8) (1 # 2) Demo.dom Demo.shared)
    = [RemoteInsert payload] /\
    Photo.x (Synced.photoOfRow true Demo.dom
               (Session.stored "n1" 7 "alice" payload))
    = (500 / 1000)%Q.
Proof.
  destruct (card_kept_outside_viewport_is_misplaced "p1" 500 (-8) (1 # 2)
              Demo.dom Demo.dom Demo.shared Demo.alice Demo.ready "n1" "alice"
              7 true eq_refl eq_refl eq_refl eq_refl eq_refl)
    as [payload [Hs [_ [Hx _]]]].
  - intros (_ & _ & H & _). now vm_compute in H.
  - exists payload. split; [exact Hs|exact Hx].
Defined.

(** ** Cursor presence *)









(** X17. A pointer move of one client, delivered to a run of the effect
    of a client signed in as somebody else, puts the sender's cursor in
    that client's map under the sender's id, stamped with the time of
    receipt; the overlay draws it at the same percentage of the
    receiver's viewport as the pointer had in the sender's, fully
    opaque at that instant. The receiver's other cursors and its cards
    are untouched. *)
Theorem pointer_reaches_other_client
    (clientX clientY : Q) (d : Dom) (sender receiver : Synced.State)
    (channel : string) (p : Presence.CursorPayload)
    (g : nat) (r : Synced.EffectRun) (now : Z) :
  Presence.handleMouseMove clientX clientY d sender = Some (channel, p) ->
  Synced.runs receiver !! g = Some r ->
  Presence.userId p <> uid (Synced.run_user r) ->
  exists c,
    Synced.cursors (Presence.receive g p now receiver) !! Presence.userId p
    = Some c /\
    Synced.lastUpdate c = now /\
    CursorOverlay.leftPercent c = (clientX / innerWidth d * 100)%Q /\
    CursorOverlay.topPercent c = (clientY / innerHeight d * 100)%Q /\
    (CursorOverlay.opacity now c == 1)%Q /\
    delete (Presence.userId p) (Synced.cursors (Presence.receive g p now receiver))
    = delete (Presence.userId p) (Synced.cursors receiver) /\
    Synced.base (Presence.receive g p now receiver) = Synced.base receiver.
Proof.
  intros Hs Hr Hne.
  unfold Presence.handleMouseMove in Hs.
  destruct (App.user (Synced.base sender)) as [u|]; [|discriminate].
  destruct (Synced.channelRef sender) as [ch|]; [|discriminate].
  injection Hs as <- <-. cbn in *.
  unfold Presence.receive, Synced.cursorReceived. cbn.
  rewrite Hr.
  destruct (uid u =? uid (Synced.run_user r))%string eqn:E;
    [apply String.eqb_eq in E; contradiction|].
  cbn. eexists. split; [apply lookup_insert_eq|].
  cbn. repeat split.
  - unfold CursorOverlay.opacity, CursorOverlay.Math_max. cbn.
    rewrite Z.sub_diag. reflexivity.
  - apply delete_insert_eq.
Qed.

Lemma pointer_reaches_other_client_witness :
  exists c,
    Synced.cursors
      (Presence.receive 0
         (Presence.mkCursorPayload "alice" (120 / 1000) (340 / 800)
            (Presence.color "alice"))
         9
         (Synced.mkState Demo.signedIn ∅ (Some (App.topic "global"))
            [Synced.mkEffectRun false "global" (mkUser "bob")] (Some 0%nat)))
    !! "alice"%string = Some c /\
    Synced.lastUpdate c = 9.
Proof.
  assert (Hs : Presence.handleMouseMove 120 340 Demo.dom Demo.shared
               = Some (App.topic "global",
                       Presence.mkCursorPayload "alice" (120 / 1000) (340 / 800)
                         (Presence.color "alice")))
    by reflexivity.
  assert (Hne : Presence.userId
                  (Presence.mkCursorPayload "alice" (120 / 1000) (340 / 800)
                     (Presence.color "alice"))
                <> uid (Synced.run_user
                          (Synced.mkEffectRun false "global" (mkUser "bob"))))
    by discriminate.
  destruct (pointer_reaches_other_client 120 340 Demo.dom Demo.shared
              (Synced.mkState Demo.signedIn ∅ (Some (App.topic "global"))
                 [Synced.mkEffectRun false "global" (mkUser "bob")] (Some 0%nat))
              _ _ 0%nat _ 9 Hs eq_refl Hne)
    as [c (Hc & Ht & _)].
  exists c. split; [exact Hc|exact Ht].
Defined.

(** ** The throttle utility *)

Lemma throttle_counts {A : Type} (limit : Z) (es : list (Throttle.Event A))
    (inThrottle : bool) :
  (length (Throttle.applied (snd (Throttle.run limit es inThrottle)))
   <= (if inThrottle then 0 else 1) + Throttle.timersFired es)%nat /\
  Throttle.timersSet (snd (Throttle.run limit es inThrottle))
  = length (Throttle.applied (snd (Throttle.run limit es inThrottle))).
Proof.
  revert inThrottle.
  induction es as [|[args|] es IH]; intros b.
  - cbn. split; [lia|reflexivity].
  - destruct (IH true) as [H1 H2].
    unfold Throttle.timersFired, Throttle.timersSet, Throttle.applied in *.
    destruct b; cbn in *.
    + split; [exact H1|exact H2].
    + split; [lia|now rewrite H2].
  - destruct (IH false) as [H1 H2].
    unfold Throttle.timersFired, Throttle.timersSet, Throttle.applied,
      Throttle.clear in *.
    cbn in *. change (Throttle.clear b) with false.
    split; [destruct b; lia|exact H2].
Qed.

(** X18. The throttled function, from its creation and over any
    interleaving of calls and timer callbacks: the wrapped function is
    applied at most once more than the number of timer callbacks that
    have run, each application sets exactly one timer, and the first
    call is applied at once with its own arguments (leading edge). *)
Theorem throttle_applies_once_per_window {A : Type}
    (limit : Z) (es : list (Throttle.Event A)) (first : A) :
  (length (Throttle.applied (snd (Throttle.run limit es false)))
   <= 1 + Throttle.timersFired es)%nat /\
  Throttle.timersSet (snd (Throttle.run limit es false))
  = length (Throttle.applied (snd (Throttle.run limit es false))) /\
  hd_error (Throttle.applied
              (snd (Throttle.run limit (Throttle.Called first :: es) false)))
  = Some first.
Proof.
  destruct (throttle_counts limit es false) as [H1 H2].
  split; [exact H1|]. split; [exact H2|]. reflexivity.
Qed.

(** ** The sign-in dialog *)

(** X19. One attempt in the sign-in dialog, from submission to the end
    of the handler: the request carries the typed email and password;
    whatever message an earlier attempt left, the message shown
    afterwards is exactly this attempt's failure (none on success);
    [loading] is true while the request is out and false again in every
    outcome; the typed fields stay in the dialog's state. The dialog is
    closed only by a successful sign-in: a failure, and a successful
    sign-up (which alerts instead), leave the application state as it
    was. *)
Theorem auth_attempt_outcome
    (failure : option string) (s : AuthModal.State) (a : App.AppState) :
  AuthModal.loading (fst (AuthModal.handleAuth s)) = true /\
  snd (AuthModal.handleAuth s)
  = (if AuthModal.isSignUp s
     then AuthModal.SignUp (AuthModal.email s) (AuthModal.password s)
     else AuthModal.SignInWithPassword (AuthModal.email s) (AuthModal.password s)) /\
  fst (fst (AuthModal.settled (AuthModal.isSignUp s) failure
              (fst (AuthModal.handleAuth s)) a))
  = AuthModal.mkState (AuthModal.email s) (AuthModal.password s)
                      (AuthModal.isSignUp s) false failure /\
  snd (fst (AuthModal.settled (AuthModal.isSignUp s) failure
              (fst (AuthModal.handleAuth s)) a))
  = (match failure, AuthModal.isSignUp s with
     | None, false => App.setIsAuthOpen false a
     | _, _ => a
     end) /\
  (snd (AuthModal.settled (AuthModal.isSignUp s) failure
          (fst (AuthModal.handleAuth s)) a) <> [] <->
   failure = None /\ AuthModal.isSignUp s = true).
Proof.
  split; [reflexivity|]. split; [reflexivity|].
  destruct failure as [m|], (AuthModal.isSignUp s) eqn:E; cbn; rewrite ?E; cbn.
  - repeat split; try tauto. intros [H _]. discriminate H.
  - repeat split; try tauto. intros [H _]. discriminate H.
  - repeat split; try tauto. discriminate.
  - split; [reflexivity|]. split; [now destruct a|].
    split; [tauto|]. intros [_ H]. discriminate H.
Qed.

(** ** The caption service *)

(** X20. The caption service never answers with the empty string,
    whatever the key, the way the model's call ends and the text it
    returns: an empty or blank answer, a missing text, a failed call and
    a missing key each give their own fixed caption. Without a key the
    result does not depend on the call at all. *)
Theorem caption_is_never_empty
    (trim : string -> string) (apiKey : string) (reply reply' : Gemini.Reply) :
  Gemini.generateCaption trim apiKey reply <> ""%string /\
  Gemini.generateCaption trim "" reply = Gemini.generateCaption trim "" reply' /\
  Gemini.generateCaption trim apiKey Gemini.Threw
  = Gemini.generateCaption trim apiKey (Gemini.Answered None).
Proof.
  split; [|split; reflexivity].
  unfold Gemini.generateCaption.
  destruct (apiKey =? "")%string; [discriminate|].
  destruct reply as [|[text|]]; try discriminate.
  destruct (trim text =? "")%string eqn:E; [discriminate|].
  now apply String.eqb_neq in E.
Qed.

Lemma cut_eq (sep s : string) :
  Gemini.cut sep s
  = if String.prefix sep s
    then Some (EmptyString, String.substring (String.length sep)
                              (String.length s - String.length sep) s)
    else match s with
         | EmptyString => None
         | String c s' =>
             match Gemini.cut sep s' with
             | Some (before, after) => Some (String c before, after)
             | None => None
             end
         end.
Proof. destruct s; reflexivity. Qed.

Lemma substring_whole (s : string) :
  String.substring 0 (String.length s) s = s.
Proof. induction s as [|c s IH]; cbn; [reflexivity|now rewrite IH]. Qed.

Lemma prefix_split (a s : string) :
  String.prefix a s = true -> exists r, s = (a ++ r)%string.
Proof.
  revert s. induction a as [|x a IH]; intros s H.
  - now exists s.
  - destruct s as [|y s]; [discriminate|]. cbn in H.
    destruct (Ascii.ascii_dec x y) as [->|]; [|discriminate].
    destruct (IH s H) as [r ->]. now exists r.
Qed.

Section DataUrl.

Import Stdlib.Strings.Ascii.

Lemma cut_without_comma (s : string) :
  Forall (fun c => c <> ","%char) (list_ascii_of_string s) ->
  Gemini.cut "base64," s = None.
Proof.
  induction s as [|c s IH]; intros H; rewrite cut_eq.
  - reflexivity.
  - destruct (String.prefix "base64," (String c s)) eqn:E.
    + apply prefix_split in E. destruct E as [r E]. rewrite E in H.
      cbn in H. rewrite List.Forall_forall in H.
      exfalso. apply (H ","%char); [|reflexivity].
      cbn. do 6 right. now left.
    + cbn in H. inversion H; subst. now rewrite IH.
Qed.

Lemma cut_at_marker (pre rest : string) :
  Forall (fun c => c <> "b"%char) (list_ascii_of_string pre) ->
  Gemini.cut "base64," (pre ++ "base64," ++ rest) = Some (pre, rest).
Proof.
  induction pre as [|c pre IH]; intros H; rewrite cut_eq.
  - change ("" ++ "base64," ++ rest)%string
      with (String "b" (String "a" (String "s" (String "e"
              (String "6" (String "4" (String "," rest))))))).
    cbn. replace (String.prefix "" rest) with true by (now destruct rest).
    now rewrite Nat.sub_0_r, substring_whole.
  - cbn in H. inversion H as [|? ? Hc Hrest]; subst.
    change (String c pre ++ "base64," ++ rest)%string
      with (String c (pre ++ "base64," ++ rest)%string).
    change (String.prefix "base64," (String c (pre ++ "base64," ++ rest)%string))
      with (if Ascii.ascii_dec "b" c
            then String.prefix "ase64," (pre ++ "base64," ++ rest)%string
            else false).
    destruct (Ascii.ascii_dec "b" c) as [E|_];
      [symmetry in E; contradiction|].
    now rewrite (IH Hrest).
Qed.

(** X21. What the caption service sends as image data: for a data URL
    made of a media-type part without the letter b, the marker
    [base64,] and a payload without a comma (as base-64 text is), it is
    exactly the payload; a string without the marker is sent whole. *)
Theorem data_url_payload_is_extracted (pre payload : string) :
  Forall (fun c => c <> "b"%char) (list_ascii_of_string pre) ->
  Forall (fun c => c <> ","%char) (list_ascii_of_string payload) ->
  Gemini.cleanBase64 (pre ++ "base64," ++ payload) = payload /\
  Gemini.cleanBase64 payload = payload.
Proof.
  intros Hpre Hpay. unfold Gemini.cleanBase64. split.
  - rewrite (cut_at_marker pre payload Hpre).
    now rewrite (cut_without_comma payload Hpay).
  - now rewrite (cut_without_comma payload Hpay).
Qed.

Lemma data_url_payload_is_extracted_witness :
  Gemini.cleanBase64 "data:image/jpeg;base64,/9j/4AAQSkZJRg==" = "/9j/4AAQSkZJRg=="%string.
Proof.
  apply (data_url_payload_is_extracted "data:image/jpeg;" "/9j/4AAQSkZJRg==").
  - cbn. repeat constructor; discriminate.
  - cbn. repeat constructor; discriminate.
Defined.

End DataUrl.

(** ** The card view: dragging and flipping *)

Lemma moves_snoc (path : list (Q * Q)) (p : Q * Q) (s : PolaroidView.State) :
  PolaroidView.moves (path ++ [p]) s
  = PolaroidView.handleWindowMove (fst p) (snd p) (PolaroidView.moves path s).
Proof. unfold PolaroidView.moves. now rewrite fold_left_app. Qed.

Lemma moves_keep (path : list (Q * Q)) (s : PolaroidView.State) :
  PolaroidView.dragOffset (PolaroidView.moves path s) = PolaroidView.dragOffset s /\
  PolaroidView.dragStartPos (PolaroidView.moves path s)
  = PolaroidView.dragStartPos s /\
  PolaroidView.isFlipped (PolaroidView.moves path s) = PolaroidView.isFlipped s /\
  PolaroidView.hasMoved (PolaroidView.moves path s)
  = PolaroidView.hasMoved s
    || existsb (fun p => PolaroidView.farther
                           (fst p - fst (PolaroidView.dragStartPos s))
                           (snd p - snd (PolaroidView.dragStartPos s)))
               path.
Proof.
  revert s. induction path as [|p path IH]; intros s.
  - cbn. now rewrite orb_false_r.
  - change (PolaroidView.moves (p :: path) s)
      with (PolaroidView.moves path
              (PolaroidView.handleWindowMove (fst p) (snd p) s)).
    destruct (IH (PolaroidView.handleWindowMove (fst p) (snd p) s))
      as (H1 & H2 & H3 & H4).
    rewrite H1, H2, H3, H4. cbn.
    repeat split.
    destruct (PolaroidView.farther _ _), (PolaroidView.hasMoved s);
      reflexivity.
Qed.

(** X22. A dragged card follows the pointer. From a press on a card that
    is not ejecting, through any pointer moves, to the release: the
    position handed to [onDragEnd], with the card's id, is the card's
    position at the press displaced by exactly the pointer's travel
    between the press and the last move; without a move it is the
    position at the press. The press itself brings the card forward. *)
Theorem dragged_card_follows_pointer
    (photo : Photo.t) (s : PolaroidView.State) (pressX pressY : Q)
    (path : list (Q * Q)) (lastX lastY : Q) :
  Photo.isEjecting photo = false ->
  snd (PolaroidView.handleStart photo false true pressX pressY s) = true /\
  snd (PolaroidView.handleWindowUp photo
         (fst (PolaroidView.handleStart photo false true pressX pressY s)))
  = (Photo.id photo, fst (PolaroidView.position s),
     snd (PolaroidView.position s)) /\
  exists x y,
    snd (PolaroidView.handleWindowUp photo
           (PolaroidView.moves (path ++ [(lastX, lastY)])
              (fst (PolaroidView.handleStart photo false true pressX pressY s))))
    = (Photo.id photo, x, y) /\
    (x == fst (PolaroidView.position s) + (lastX - pressX))%Q /\
    (y == snd (PolaroidView.position s) + (lastY - pressY))%Q.
Proof.
  intros He. unfold PolaroidView.handleStart. rewrite He.
  split; [reflexivity|]. split; [reflexivity|].
  rewrite moves_snoc.
  destruct (moves_keep path
              (PolaroidView.mkState (PolaroidView.position s) true
                 (PolaroidView.isFlipped s) false
                 ((pressX - fst (PolaroidView.position s))%Q,
                  (pressY - snd (PolaroidView.position s))%Q)
                 (pressX, pressY) true)) as (H1 & _).
  cbn [fst snd]. unfold PolaroidView.handleWindowUp, PolaroidView.handleWindowMove.
  cbn [fst snd PolaroidView.position]. rewrite H1. cbn [fst snd PolaroidView.dragOffset].
  eexists _, _. split; [reflexivity|]. split; ring.
Qed.

Lemma dragged_card_follows_pointer_witness :
  exists x y,
    snd (PolaroidView.handleWindowUp Demo.ready
           (PolaroidView.moves ([(100%Q, 310%Q)] ++ [(130%Q, 350%Q)])
              (fst (PolaroidView.handleStart Demo.ready false true 95 305
                      (PolaroidView.mount Demo.ready)))))
    = ("p1"%string, x, y) /\
    (x == 92 + (130 - 95))%Q.
Proof.
  destruct (dragged_card_follows_pointer Demo.ready
              (PolaroidView.mount Demo.ready) 95 305 [(100%Q, 310%Q)] 130 350
              eq_refl) as (_ & _ & x & y & H & Hx & _).
  exists x, y. split; [exact H|exact Hx].
Defined.



(** ** The square crop *)

Lemma half_nonneg (a : Q) : (0 <= a)%Q -> (0 <= a / 2)%Q.
Proof.
  intros H. apply Qle_shift_div_l; [reflexivity|]. now rewrite Qmult_0_l.
Qed.

(** X24. The square cut out of a captured frame lies inside the frame
    and is centred in it: its side is the smaller of the frame's width
    and height, its margins are equal on both sides of each axis and not
    negative, and on the shorter axis there is no margin at all. *)
Theorem crop_is_centred_square (v : Video) :
  Frame.size (Frame.crop v)
  = inject_Z (Z.min (videoWidth v) (videoHeight v)) /\
  (0 <= Frame.startX (Frame.crop v))%Q /\
  (0 <= Frame.startY (Frame.crop v))%Q /\
  (Frame.startX (Frame.crop v) + Frame.size (Frame.crop v)
   + Frame.startX (Frame.crop v) == inject_Z (videoWidth v))%Q /\
  (Frame.startY (Frame.crop v) + Frame.size (Frame.crop v)
   + Frame.startY (Frame.crop v) == inject_Z (videoHeight v))%Q /\
  ((Frame.startX (Frame.crop v) == 0)%Q \/ (Frame.startY (Frame.crop v) == 0)%Q).
Proof.
  unfold Frame.crop, Frame.Math_min. cbn.
  destruct (Qle_bool (inject_Z (videoWidth v)) (inject_Z (videoHeight v)))
    eqn:E.
  - apply Qle_bool_iff in E. pose proof E as Ez. rewrite <- Zle_Qle in Ez.
    rewrite Z.min_l by exact Ez.
    split; [reflexivity|].
    split; [apply half_nonneg; lra|].
    split; [apply half_nonneg; lra|].
    split; [field|]. split; [field|]. left. field.
  - assert (Ez : videoHeight v < videoWidth v).
    { destruct (Z_lt_le_dec (videoHeight v) (videoWidth v)) as [H|H];
        [exact H|].
      rewrite Zle_Qle in H. apply Qle_bool_iff in H. congruence. }
    assert (Eq : (inject_Z (videoHeight v) < inject_Z (videoWidth v))%Q)
      by (now rewrite <- Zlt_Qlt).
    rewrite Z.min_r by lia.
    split; [reflexivity|].
    split; [apply half_nonneg; lra|].
    split; [apply half_nonneg; lra|].
    split; [field|]. split; [field|]. right. field.
Qed.

(** ** Capture in the shared-room revision *)

(** X25. In the shared-room revision the room id is checked before the
    video: when the shutter button is enabled (permission granted,
    camera on, film left, not capturing, not reloading, slot free) and
    the room id is blank after trimming, a press of the shutter only
    shows the warning MISSING ID, opens the settings and sets the
    2000 ms timer that clears the warning, whatever the video element
    and the canvas are. No film is used and nothing is played,
    recorded, broadcast or ejected, although the camera was ready. *)
Theorem blank_room_id_stops_capture
    (trim : string -> string) (d : Dom) (s : Studio.State) :
  Studio.shutterDisabled s = false ->
  trim (App.room (Studio.base s)) = ""%string ->
  Studio.takePhoto trim d s
  = (Studio.setWarningMsg (Some "MISSING ID"%string)
       (Studio.setBase (App.setIsSettingsOpen true (Studio.base s)) s),
     [Studio.ClearWarningAfter 2000]) /\
  App.shotsLeft (Studio.base (fst (Studio.takePhoto trim d s)))
  = App.shotsLeft (Studio.base s) /\
  App.state (Studio.base (fst (Studio.takePhoto trim d s)))
  = App.state (Studio.base s) /\
  Studio.isRecording (fst (Studio.takePhoto trim d s)) = Studio.isRecording s /\
  App.isSettingsOpen (Studio.base (fst (Studio.takePhoto trim d s))) = true /\
  Studio.shutterDisabled (fst (Studio.takePhoto trim d s)) = false.
Proof.
  intros Hen Hr.
  assert (Hp : App.pendingPhoto (Studio.base s) = None).
  { unfold Studio.shutterDisabled in Hen.
    destruct (App.pendingPhoto (Studio.base s)); [|reflexivity].
    destruct (permissionGranted _), (isCapturing _), (App.shotsLeft _ <=? 0),
      (App.isReloading _), (isPoweredOn _); discriminate Hen. }
  assert (E : Studio.takePhoto trim d s
              = (Studio.setWarningMsg (Some "MISSING ID"%string)
                   (Studio.setBase (App.setIsSettingsOpen true (Studio.base s)) s),
                 [Studio.ClearWarningAfter 2000])).
  { unfold Studio.takePhoto. now rewrite Hp, Hr. }
  rewrite E. repeat split. exact Hen.
Qed.

Lemma blank_room_id_stops_capture_witness :
  Studio.shutterDisabled
    (Studio.mkState
       (Synced.mkState (App.setRoom " " Demo.poweredOn) ∅ None [] None)
       Studio.PhotoMode false None) = false /\
  App.isSettingsOpen
    (Studio.base
       (fst (Studio.takePhoto (fun _ => ""%string) Demo.dom
               (Studio.mkState
                  (Synced.mkState (App.setRoom " " Demo.poweredOn) ∅ None []
                                  None)
                  Studio.PhotoMode false None))))
  = true.
Proof.
  split; [reflexivity|].
  exact (proj1 (proj2 (proj2 (proj2 (proj2
           (blank_room_id_stops_capture (fun _ => ""%string) Demo.dom
              (Studio.mkState
                 (Synced.mkState (App.setRoom " " Demo.poweredOn) ∅ None []
                                 None)
                 Studio.PhotoMode false None)
              eq_refl eq_refl)))))).
Defined.

(** X26. Recording is exclusive and free of film. Whenever a press of
    the shutter starts the recorder, the camera is in video mode, the
    press played the shutter sound and set the 3000 ms stop timer and
    nothing else, the film counter and the rest of the shared state are
    untouched, and [isRecording] is set: until it is cleared, every
    further press, in whatever state the document is, is refused. *)
Theorem recording_is_exclusive
    (trim : string -> string) (d d' : Dom) (s : Studio.State) (st : nat) :
  In (Studio.StartRecorder st) (snd (Studio.takePhoto trim d s)) ->
  Studio.mode s = Studio.VideoMode /\
  snd (Studio.takePhoto trim d s)
  = [Studio.Issue (Play Shutter); Studio.StartRecorder st;
     Studio.StopRecorderAfter 3000] /\
  Studio.synced (fst (Studio.takePhoto trim d s)) = Studio.synced s /\
  Studio.isRecording (fst (Studio.takePhoto trim d s)) = true /\
  Studio.takePhoto trim d' (fst (Studio.takePhoto trim d s))
  = (fst (Studio.takePhoto trim d s), []).
Proof.
  intros H.
  assert (K : Studio.mode s = Studio.VideoMode /\
              Studio.takePhoto trim d s
              = (Studio.setIsRecording true s,
                 [Studio.Issue (Play Shutter); Studio.StartRecorder st;
                  Studio.StopRecorderAfter 3000]) /\
              App.pendingPhoto (Studio.base s) = None /\
              (trim (App.room (Studio.base s)) =? "")%string = false /\
              (App.shotsLeft (Studio.base s) <=? 0)
              || App.isReloading (Studio.base s)
              || negb (isPoweredOn (App.state (Studio.base s))) = false).
  { revert H. unfold Studio.takePhoto.
    destruct (App.pendingPhoto (Studio.base s)) eqn:Hp; [intros []|].
    destruct (trim (App.room (Studio.base s)) =? "")%string eqn:Hr.
    { intros H; in_cases H. }
    destruct ((App.shotsLeft (Studio.base s) <=? 0)
              || App.isReloading (Studio.base s)
              || negb (isPoweredOn (App.state (Studio.base s)))) eqn:Hg;
      [intros []|].
    destruct (videoRef d) as [video|]; [|intros []].
    destruct (negb (canvasRef d) || isCapturing (App.state (Studio.base s))
              || Studio.isRecording s) eqn:Hc; [intros []|].
    destruct ((readyState video <? 2) || (videoWidth video =? 0)
              || (videoHeight video =? 0)) eqn:Hv; [intros []|].
    destruct (Studio.mode s) eqn:Hm.
    - intros H. exfalso.
      destruct (Synced.channelRef (Studio.synced s)),
        (isFlashOn (App.state (Studio.base s))), (context2d d),
        (squareContext2d d), (cameraFlash d); in_cases H.
    - destruct (stream (App.state (Studio.base s))) as [st'|] eqn:Hs;
        [|intros []].
      intros H. in_cases H. injection H as <-. now repeat split. }
  destruct K as (Hm & E & Hp & Hr & Hg).
  rewrite E. cbn [fst snd].
  repeat split; try assumption.
  unfold Studio.takePhoto.
  change (Studio.base (Studio.setIsRecording true s)) with (Studio.base s).
  rewrite Hp, Hr, Hg.
  destruct (videoRef d') as [video'|]; [|reflexivity].
  cbn. now rewrite orb_true_r.
Qed.

Lemma recording_is_exclusive_witness :
  Studio.isRecording
    (fst (Studio.takePhoto (fun r => r) Demo.dom
            (Studio.mkState (Synced.mkState Demo.poweredOn ∅ None [] None)
                            Studio.VideoMode false None)))
  = true.
Proof.
  assert (H : In (Studio.StartRecorder 0)
                (snd (Studio.takePhoto (fun r => r) Demo.dom
                        (Studio.mkState
                           (Synced.mkState Demo.poweredOn ∅ None [] None)
                           Studio.VideoMode false None))))
    by (vm_compute; tauto).
  exact (proj1 (proj2 (proj2 (proj2
           (recording_is_exclusive (fun r => r) Demo.dom Demo.dom _ 0%nat H))))).
Defined.

(** X27. Custom text as caption. With AI captions off, the capture that
    [ejectMedia] puts in the slot carries the custom text as its
    caption and no caption request is issued; when the signed-in user
    then keeps it, the insert request carries that caption and the
    media's URL, and every client that reads the stored row back gets a
    card with the same caption and URL, its media type read off the
    URL. *)
Theorem custom_text_travels_as_caption
    (d d' d'' : Dom) (uuid : string) (now : Z) (url text : string)
    (type : MediaType) (x y random : Q) (s : Studio.State) (u : User)
    (newId owner : string) (createdAt : Z) (developing : bool) :
  App.user (Studio.base s) = Some u ->
  (forall i dataUrl,
     ~ In (Studio.Issue (GenerateCaption i dataUrl))
          (snd (Studio.ejectMedia d uuid now url type false text s))) /\
  exists pp payload,
    App.pendingPhoto
      (Studio.base (fst (Studio.ejectMedia d uuid now url type false text s)))
    = Some pp /\
    Photo.caption pp = Some text /\
    snd (Studio.handlePendingDragEnd uuid x y random d'
           (fst (Studio.ejectMedia d uuid now url type false text s)))
    = [RemoteInsert payload] /\
    i_caption payload = Some text /\
    i_data_url payload = url /\
    Photo.caption (Synced.photoOfRow developing d''
                     (Session.stored newId createdAt owner payload))
    = Some text /\
    Photo.dataUrl (Synced.photoOfRow developing d''
                     (Session.stored newId createdAt owner payload))
    = url /\
    Photo.mediaType (Synced.photoOfRow developing d''
                       (Session.stored newId createdAt owner payload))
    = Some (Synced.mediaTypeOf url).
Proof.
  intros Hu. split.
  - intros i dataUrl H. unfold Studio.ejectMedia in H. in_cases H.
  - eexists _, _. split; [reflexivity|]. split; [reflexivity|].
    split.
    + unfold Studio.handlePendingDragEnd, Synced.handlePendingDragEnd,
        Studio.ejectMedia.
      cbn. change (Synced.base (Studio.synced s)) with (Studio.base s).
      rewrite Hu, String.eqb_refl. reflexivity.
    + now repeat split.
Qed.

Lemma custom_text_travels_as_caption_witness :
  exists pp,
    App.pendingPhoto
      (Studio.base
         (fst (Studio.ejectMedia Demo.dom "p2" 9 Demo.jpeg MediaPhoto false
                 "Summer" (Studio.mkState Demo.shared Studio.PhotoMode false None))))
    = Some pp /\
    Photo.caption pp = Some "Summer"%string.
Proof.
  destruct (custom_text_travels_as_caption Demo.dom Demo.dom Demo.dom "p2" 9
              Demo.jpeg "Summer" MediaPhoto 120 340 (1 # 2)
              (Studio.mkState Demo.shared Studio.PhotoMode false None)
              Demo.alice "n1" "alice" 7 true eq_refl)
    as (_ & pp & payload & Hp & Hc & _).
  exists pp. split; [exact Hp|exact Hc].
Defined.
